(** * check-project-names.py: a shallow embedding and its verified properties

    The script reads a wordlist, checks every entry against the naming
    rule of the provider, asks the remote resource manager whether the
    entry is already registered, and prints a summary.

    Python strings are sequences of Unicode code points; they are modelled
    as lists of [N].  The character tables of the Python runtime are not
    part of the repository: the ASCII range is written out, and the rest
    of the tables is the interface [UnicodeData].  The lower-case mapping
    of the interpreter is written out as well, as [LOWER_TABLE], for the
    one property that depends on what the table holds.

    The script prints, asks the resource manager, sleeps, and leaves by
    [sys.exit] or by an exception: a computation is a function on the
    trace of what the process did so far, returning or raising.  What a
    [print] writes is kept as a constructor with the interpolated values.
    The file system, the client library and the resource manager are the
    record [world]; the answer of the resource manager may depend on how
    many requests came before.  [main] starts after
    [parser.parse_args()]; the delay, a float in the source, is a
    rational number of seconds: the finite values of [float].  (The
    command line also takes [inf] and [nan], which [time.sleep] refuses
    like a length that is negative or too long; they are left out.)  How
    long a pause the runtime takes is the interface [Clock]. *)

From Stdlib Require Import List Bool NArith ZArith QArith Lia String Ascii.
Import ListNotations.

Local Open Scope N_scope.

(** ** Characters *)

Definition char := N.
Definition pystr := list char.

(** A string literal of the source, as code points. *)
Definition py (s : string) : pystr := map N_of_ascii (list_ascii_of_string s).
Arguments py : simpl never.

Definition LF : char := 10.
Definition CR : char := 13.
Definition HYPHEN : char := 45.
Definition HASH : char := 35.
Definition CAPITAL_SIGMA : char := 0x3A3.
Definition FINAL_SIGMA : char := 0x3C2.
Definition SMALL_SIGMA : char := 0x3C3.

(** What the runtime's Unicode database says about code points.  The
    classification and case tables are only consulted above the ASCII
    range; the two properties used by the final-sigma rule are consulted
    everywhere. *)
Class UnicodeData := {
  ucd_alpha : char -> bool;
  ucd_numeric : char -> bool;
  ucd_space : char -> bool;
  ucd_lower : char -> list char;
  ucd_cased : char -> bool;
  ucd_case_ignorable : char -> bool
}.

Definition is_ascii (c : char) : bool := c <? 128.

Definition ascii_isupper (c : char) : bool := (65 <=? c) && (c <=? 90).
Definition ascii_islower (c : char) : bool := (97 <=? c) && (c <=? 122).
Definition ascii_isdigit (c : char) : bool := (48 <=? c) && (c <=? 57).
Definition ascii_isspace (c : char) : bool :=
  ((9 <=? c) && (c <=? 13)) || ((28 <=? c) && (c <=? 32)).

Section Strings.
Context {U : UnicodeData}.

(** [Py_UNICODE_ISALPHA] *)
Definition char_isalpha (c : char) : bool :=
  if is_ascii c then ascii_isupper c || ascii_islower c else ucd_alpha c.

(** decimal, digit or numeric *)
Definition char_isnumeric (c : char) : bool :=
  if is_ascii c then ascii_isdigit c else ucd_numeric c.

(** [Py_UNICODE_ISALNUM] *)
Definition char_isalnum (c : char) : bool := char_isalpha c || char_isnumeric c.

(** [Py_UNICODE_ISSPACE] *)
Definition char_isspace (c : char) : bool :=
  if is_ascii c then ascii_isspace c else ucd_space c.

(** The full lower-case mapping of one code point, out of context. *)
Definition char_tolower (c : char) : list char :=
  if is_ascii c then [if ascii_isupper c then c + 32 else c] else ucd_lower c.

(** ** String methods *)

(** [s.isalnum()]: false on the empty string. *)
Definition isalnum (s : pystr) : bool :=
  match s with
  | [] => false
  | _ => forallb char_isalnum s
  end.

(** [s.isalpha()]: false on the empty string. *)
Definition isalpha (s : pystr) : bool :=
  match s with
  | [] => false
  | _ => forallb char_isalpha s
  end.

(** [s.replace(old, new)] for a pattern [old] of one character. *)
Definition replace (old : char) (new : pystr) (s : pystr) : pystr :=
  flat_map (fun c => if c =? old then new else [c]) s.

Fixpoint drop_while (p : char -> bool) (s : pystr) : pystr :=
  match s with
  | [] => []
  | c :: r => if p c then drop_while p r else s
  end.

Definition lstrip (s : pystr) : pystr := drop_while char_isspace s.
Definition rstrip (s : pystr) : pystr := rev (drop_while char_isspace (rev s)).

(** [s.strip()] *)
Definition strip (s : pystr) : pystr := rstrip (lstrip s).

(** [s.startswith(prefix)] *)
Fixpoint startswith (s prefix : pystr) : bool :=
  match prefix, s with
  | [], _ => true
  | _ :: _, [] => false
  | p :: prefix', c :: s' => (c =? p) && startswith s' prefix'
  end.

(** The final-sigma rule of [s.lower()]: a capital sigma becomes the final
    form when a cased letter precedes it (case-ignorable characters
    skipped) and no cased letter follows it.  [before] holds the
    characters to the left, nearest first. *)
Definition handle_capital_sigma (before after : pystr) : char :=
  match drop_while ucd_case_ignorable before with
  | [] => SMALL_SIGMA
  | c :: _ =>
      if ucd_cased c then
        match drop_while ucd_case_ignorable after with
        | [] => FINAL_SIGMA
        | d :: _ => if ucd_cased d then SMALL_SIGMA else FINAL_SIGMA
        end
      else SMALL_SIGMA
  end.

Fixpoint lower_from (before s : pystr) : pystr :=
  match s with
  | [] => []
  | c :: rest =>
      (if c =? CAPITAL_SIGMA then [handle_capital_sigma before rest]
       else char_tolower c)
      ++ lower_from (c :: before) rest
  end.

(** [s.lower()] *)
Definition lower (s : pystr) : pystr := lower_from [] s.

(** ** Reading a text file line by line *)

(** Universal newlines: the text layer hands out [CR LF] and a lone [CR]
    as [LF]. *)
Fixpoint universal_newlines (s : pystr) : pystr :=
  match s with
  | [] => []
  | c :: r =>
      if c =? CR then
        LF :: match r with
              | [] => []
              | d :: r' => if d =? LF then universal_newlines r'
                           else universal_newlines r
              end
      else c :: universal_newlines r
  end.

(** [for line in f]: every line keeps its terminator; [cur] is the line
    being read, last character first. *)
Fixpoint iter_lines (cur : pystr) (s : pystr) : list pystr :=
  match s with
  | [] => match cur with [] => [] | _ => [rev cur] end
  | c :: r =>
      if c =? LF then rev (c :: cur) :: iter_lines [] r
      else iter_lines (c :: cur) r
  end.

Definition file_lines (content : pystr) : list pystr :=
  iter_lines [] (universal_newlines content).

End Strings.

(** ** Exceptions, output and the process *)

Inductive exc_class :=
| FileNotFoundError | IndexError | ValueError | OtherError
| OverflowError | OSError.

(** An exception object: its class, its [status] attribute when it has
    one, and its text.  A status that is not an integer compares unequal
    to 404 and 403, like any other integer. *)
Record exception := {
  exc_kind : exc_class;
  exc_status : option Z;
  exc_text : pystr
}.

(** What unwinds the stack: [SystemExit] is not an [Exception], so
    [except Exception] lets it through. *)
Inductive raised :=
| SystemExit (code : Z)
| Exc (e : exception).

Inductive outcome (A : Type) :=
| Return (a : A)
| Raise (r : raised).
Arguments Return {A} a.
Arguments Raise {A} r.

(** Every [print] of the script, with the values it interpolates. *)
Inductive message :=
| MsgLoaded (n : nat) (filename : pystr)
| MsgFileNotFound (filename : pystr)
| MsgReadError (e : exception)
| MsgUnexpected (project_id : pystr) (e : exception)
| MsgBanner
| MsgAuthReminder
| MsgBlank
| MsgClientFailed (e : exception)
| MsgRunLogin
| MsgNoNames
| MsgChecking (n : nat)
| MsgInvalid (i total : nat) (name : pystr)
| MsgStatus (i total : nat) (name : pystr) (found : bool)
| MsgRule
| MsgSummary
| MsgTotal (n : nat)
| MsgAvailable (n : nat)
| MsgTaken (n : nat)
| MsgAvailableHeader
| MsgAvailableItem (a : pystr)
| MsgNoneAvailable.

(** What the process does to the outside, in order. *)
Inductive event :=
| Print (m : message)
| GetProject (name : pystr)
| Sleep (secs : Q).

Definition trace := list event.

(** The outside of the process: whether the client can be built, what
    reading a path as UTF-8 text gives, and what the resource manager
    answers to the k-th request ([None]: the project is returned;
    [Some e]: the call raises [e], an [Exception]). *)
Record world := {
  projects_client : option exception;
  open_text : pystr -> exception + pystr;
  get_project : nat -> pystr -> option exception
}.

Inductive client := ProjectsClient.

(** A computation appends to the trace and returns or raises. *)
Definition io (A : Type) := trace -> outcome A * trace.

Definition ret {A} (a : A) : io A := fun tr => (Return a, tr).

Definition bind {A B} (c : io A) (k : A -> io B) : io B :=
  fun tr =>
    match c tr with
    | (Return a, tr') => k a tr'
    | (Raise r, tr') => (Raise r, tr')
    end.

Declare Scope io_scope.
Delimit Scope io_scope with io.
Notation "x <- c ;; k" := (bind c (fun x => k))
  (at level 61, c at next level, right associativity) : io_scope.
Notation "c ;; k" := (bind c (fun _ => k))
  (at level 61, right associativity) : io_scope.
Local Open Scope io_scope.

Definition raise {A} (r : raised) : io A := fun tr => (Raise r, tr).

Definition emit (e : event) : io unit := fun tr => (Return tt, tr ++ [e]).

Definition print (m : message) : io unit := emit (Print m).

(** [sys.exit(code)] *)
Definition sys_exit {A} (code : Z) : io A := raise (SystemExit code).

(** [try: body / except Exception as e: handler e] *)
Definition try_except {A} (body : io A) (handler : exception -> io A) : io A :=
  fun tr =>
    match body tr with
    | (Raise (Exc e), tr') => handler e tr'
    | r => r
    end.

(** [a and b], on conditions that may raise: [b] runs only when [a] holds. *)
Definition py_and (a b : io bool) : io bool :=
  x <- a ;; if x then b else ret false.

(** [s[i]] *)
Definition getitem (s : pystr) (i : nat) : io char :=
  match nth_error s i with
  | Some c => ret c
  | None =>
      raise (Exc {| exc_kind := IndexError; exc_status := None;
                    exc_text := py "string index out of range" |})
  end.

(** The clock of the runtime.  How long a pause [time.sleep] takes at
    most depends on the platform and on the version of the interpreter
    (the integer type of the system call, the time since the machine
    started); every runtime takes a pause of one second.  The class gives
    the nanoseconds that the longest pause lasts beyond that second, and
    what [time.sleep] raises for a length out of range: [OverflowError]
    when the count of nanoseconds does not fit its integer type, the
    error of the system call otherwise. *)
Class Clock := {
  clock_slack : N;
  clock_refusal : Q -> exception
}.

(** The error of [time.sleep] on a negative length. *)
Definition negative_sleep_error : exception :=
  {| exc_kind := ValueError; exc_status := None;
     exc_text := py "sleep length must be non-negative" |}.

Section Sleep.
Context {K : Clock}.

(** The longest pause of the runtime, in seconds. *)
Definition longest_sleep : Q := 1 + (Z.of_N clock_slack # 1000000000).

(** What [time.sleep(secs)] raises, if anything.  A negative length is
    refused for its sign as long as its count of nanoseconds fits 64
    bits, which it does down to -9223372036 seconds; below that, and
    above the longest pause, the length is out of range. *)
Definition sleep_refusal (secs : Q) : option exception :=
  if Qle_bool 0 secs then
    if Qle_bool secs longest_sleep then None else Some (clock_refusal secs)
  else if Qle_bool (- (9223372036 # 1)) secs then Some negative_sleep_error
  else Some (clock_refusal secs).

Definition sleep_accepts (secs : Q) : bool :=
  match sleep_refusal secs with
  | None => true
  | Some _ => false
  end.

(** [time.sleep(secs)] *)
Definition time_sleep (secs : Q) : io unit :=
  match sleep_refusal secs with
  | None => emit (Sleep secs)
  | Some e => raise (Exc e)
  end.

End Sleep.

Definition is_lookup (e : event) : bool :=
  match e with GetProject _ => true | _ => false end.

(** The number of requests made so far. *)
Definition lookup_count (tr : trace) : nat := List.length (filter is_lookup tr).

(** [client.get_project(name=...)]: one request to the resource manager. *)
Definition client_get_project (w : world) (c : client) (name : pystr) : io unit :=
  fun tr =>
    match get_project w (lookup_count tr) name with
    | None => (Return tt, tr ++ [GetProject name])
    | Some e => (Raise (Exc e), tr ++ [GetProject name])
    end.

(** [resourcemanager_v3.ProjectsClient()] *)
Definition new_client (w : world) : io client :=
  match projects_client w with
  | None => ret ProjectsClient
  | Some e => raise (Exc e)
  end.

(** What the process leaves behind: 0 when [main] returns, the code of
    [sys.exit], and 1 with a traceback for an exception nobody caught. *)
Definition exit_status {A} (r : outcome A) : Z :=
  match r with
  | Return _ => 0
  | Raise (SystemExit code) => code
  | Raise (Exc _) => 1
  end.

(** ** The script *)

Definition DEFAULT_WORDLIST : pystr := py "project-names.txt".

(** The parsed command line: the positional [wordlist] and [--delay]. *)
Record arguments := {
  wordlist : pystr;
  delay : Q
}.

Definition default_arguments : arguments :=
  {| wordlist := DEFAULT_WORDLIST; delay := 2 # 10 |}.

Section Script.
Context {U : UnicodeData} {K : Clock}.

(** [open(filename, 'r', encoding='utf-8')] and the reading of it. *)
Definition open_utf8 (w : world) (filename : pystr) : io pystr :=
  match open_text w filename with
  | inl e => raise (Exc e)
  | inr content => ret content
  end.

(** The list comprehension of [read_project_names]. *)
Definition stripped_names (lines : list pystr) : list pystr :=
  map strip
    (filter (fun line =>
               negb (Nat.eqb (List.length (strip line)) 0)
               && negb (startswith (strip line) [HASH]))
            lines).

Definition read_project_names (w : world) (filename : pystr) : io (list pystr) :=
  try_except
    (content <- open_utf8 w filename ;;
     let names := stripped_names (file_lines content) in
     print (MsgLoaded (List.length names) filename) ;;
     ret names)
    (fun e =>
       match exc_kind e with
       | FileNotFoundError => print (MsgFileNotFound filename) ;; sys_exit 1
       | _ => print (MsgReadError e) ;; sys_exit 1
       end).

(** [hasattr(e, 'status') and e.status in (404, 403)] *)
Definition status_not_found_or_denied (e : exception) : bool :=
  match exc_status e with
  | Some s => ((s =? 404) || (s =? 403))%Z
  | None => false
  end.

Definition project_exists (w : world) (c : client) (project_id : pystr) : io bool :=
  try_except
    (client_get_project w c (py "projects/" ++ project_id) ;;
     ret true)
    (fun e =>
       if status_not_found_or_denied e then ret false
       else print (MsgUnexpected project_id e) ;; ret false).

(** The condition of the loop:
    [6 <= len(name) <= 30 and name.replace('-', '').isalnum() and name[0].isalpha()] *)
Definition meets_naming_rules (name : pystr) : io bool :=
  py_and (ret (6 <=? List.length name)%nat)
    (py_and (ret (List.length name <=? 30)%nat)
       (py_and (ret (isalnum (replace HYPHEN [] name)))
          (c <- getitem name 0 ;; ret (isalpha [c])))).

(** The body of [for i, name in enumerate(project_names, 1)], from
    position [i] on, with the two accumulators. *)
Fixpoint check_names (w : world) (c : client) (secs : Q) (total i : nat)
    (names available taken : list pystr) : io (list pystr * list pystr) :=
  match names with
  | [] => ret (available, taken)
  | name :: rest =>
      valid <- meets_naming_rules name ;;
      if negb valid then
        print (MsgInvalid i total name) ;;
        check_names w c secs total (S i) rest available taken
      else
        found <- project_exists w c (lower name) ;;
        print (MsgStatus i total (lower name) found) ;;
        let available' := if negb found then available ++ [lower name] else available in
        let taken' := if negb found then taken else taken ++ [lower name] in
        time_sleep secs ;;
        check_names w c secs total (S i) rest available' taken'
  end.

Fixpoint print_each (items : list pystr) : io unit :=
  match items with
  | [] => ret tt
  | a :: rest => print (MsgAvailableItem a) ;; print_each rest
  end.

Definition print_summary (total : nat) (available taken : list pystr) : io unit :=
  print MsgRule ;;
  print MsgSummary ;;
  print MsgRule ;;
  print (MsgTotal total) ;;
  print (MsgAvailable (List.length available)) ;;
  print (MsgTaken (List.length taken)) ;;
  (match available with
   | [] => ret tt
   | _ => print MsgAvailableHeader ;; print_each available
   end) ;;
  match available with
  | [] => print MsgNoneAvailable
  | _ => ret tt
  end.

(** [main], after [parser.parse_args()] has produced [args]. *)
Definition main (w : world) (args : arguments) : io unit :=
  print MsgBanner ;;
  print MsgAuthReminder ;;
  print MsgBlank ;;
  c <- try_except (new_client w)
         (fun e => print (MsgClientFailed e) ;; print MsgRunLogin ;; sys_exit 1) ;;
  project_names <- read_project_names w (wordlist args) ;;
  match project_names with
  | [] => print MsgNoNames ;; sys_exit 0
  | _ =>
      print (MsgChecking (List.length project_names)) ;;
      r <- check_names w c (delay args) (List.length project_names) 1
             project_names [] [] ;;
      print_summary (List.length project_names) (fst r) (snd r)
  end.

(** One run of the process: what it did and the status it exits with. *)
Definition run (w : world) (args : arguments) : trace * Z :=
  let r := main w args [] in (snd r, exit_status (fst r)).

End Script.

(** ** The specification's vocabulary *)

Section Vocabulary.
Context {U : UnicodeData} {K : Clock}.

(** The string obtained by removing all hyphens. *)
Definition without_hyphens (name : pystr) : pystr :=
  filter (fun c => negb (c =? HYPHEN)) name.

(** The naming rule in the specification's words: length between 6 and 30
    inclusive, alphanumeric once the hyphens are removed, and a first
    character that is a letter. *)
Definition well_formed (name : pystr) : Prop :=
  (6 <= List.length name <= 30)%nat
  /\ Forall (fun c => char_isalnum c = true) (without_hyphens name)
  /\ exists c rest, name = c :: rest /\ char_isalpha c = true.

(** Made of letters, digits and hyphens only. *)
Definition letters_digits_hyphens (name : pystr) : Prop :=
  Forall (fun c => char_isalpha c = true \/ char_isnumeric c = true \/ c = HYPHEN) name.

(** The rule as one boolean, the first character read with a default
    that is never used. *)
Definition valid_name (name : pystr) : bool :=
  (6 <=? List.length name)%nat && (List.length name <=? 30)%nat
  && isalnum (replace HYPHEN [] name)
  && match name with c :: _ => char_isalpha c | [] => false end.

(** A code point that lower-casing leaves alone. *)
Definition settled (d : char) : Prop :=
  d <> CAPITAL_SIGMA /\ char_tolower d = [d].

(** The code points that lower-casing can put in the place of [c]. *)
Definition lower_images (c : char) : list char :=
  if c =? CAPITAL_SIGMA then [FINAL_SIGMA; SMALL_SIGMA] else char_tolower c.

(** The case table of the runtime maps the characters of [s] that lie
    above the ASCII range to code points that are lower case already. *)
Definition settled_case_table (s : pystr) : Prop :=
  forall c, In c s -> 128 <= c -> Forall settled (lower_images c).

(** The lines of a text, terminators ([CR LF], [CR] or [LF]) left out;
    [cur] is the line being read, last character first. *)
Fixpoint text_lines_from (cur : pystr) (s : pystr) : list pystr :=
  match s with
  | [] => [rev cur]
  | c :: r =>
      if c =? LF then rev cur :: text_lines_from [] r
      else if c =? CR then
        rev cur :: match r with
                   | [] => [[]]
                   | d :: r' => if d =? LF then text_lines_from [] r'
                                else text_lines_from [] r
                   end
      else text_lines_from (c :: cur) r
  end.

Definition text_lines (content : pystr) : list pystr := text_lines_from [] content.

Definition is_blank (line : pystr) : bool :=
  match line with [] => true | _ => false end.

Definition is_comment (line : pystr) : bool :=
  match line with c :: _ => c =? HASH | [] => false end.

(** The loader in the specification's words: the lines of the file in
    order, each trimmed, the empty ones and the comments left out. *)
Definition kept (line : pystr) : bool :=
  negb (is_blank line) && negb (is_comment line).

Definition trimmed_entries (content : pystr) : list pystr :=
  filter kept (map strip (text_lines content)).

(** The three classifications of a candidate. *)
Inductive classification := Invalid | Available | Taken.

Definition resource_name (candidate : pystr) : pystr :=
  py "projects/" ++ lower candidate.

(** The classification of every candidate of a run in which [k] requests
    were made before: an invalid candidate makes no request. *)
Fixpoint classify (w : world) (k : nat) (names : list pystr) : list classification :=
  match names with
  | [] => []
  | name :: rest =>
      if valid_name name then
        (match get_project w k (resource_name name) with
         | None => Taken
         | Some _ => Available
         end) :: classify w (S k) rest
      else Invalid :: classify w k rest
  end.

Definition is_class (c d : classification) : bool :=
  match c, d with
  | Invalid, Invalid | Available, Available | Taken, Taken => true
  | _, _ => false
  end.

(** The candidates of one classification, lower-cased, in file order. *)
Fixpoint lowered_of (c : classification) (names : list pystr)
    (cs : list classification) : list pystr :=
  match names, cs with
  | name :: names', d :: cs' =>
      if is_class c d then lower name :: lowered_of c names' cs'
      else lowered_of c names' cs'
  | _, _ => []
  end.

(** The per-item line of every candidate, numbered from [i]. *)
Fixpoint item_lines (total i : nat) (names : list pystr)
    (cs : list classification) : list message :=
  match names, cs with
  | name :: names', d :: cs' =>
      (match d with
       | Invalid => MsgInvalid i total name
       | Available => MsgStatus i total (lower name) false
       | Taken => MsgStatus i total (lower name) true
       end) :: item_lines total (S i) names' cs'
  | _, _ => []
  end.

(** The summary of a run that checked [total] candidates. *)
Definition summary_lines (total : nat) (available taken : list pystr) : list message :=
  [MsgRule; MsgSummary; MsgRule; MsgTotal total;
   MsgAvailable (List.length available); MsgTaken (List.length taken)]
  ++ match available with
     | [] => [MsgNoneAvailable]
     | _ => MsgAvailableHeader :: map MsgAvailableItem available
     end.

(** What the loader prints when the wordlist cannot be read. *)
Definition load_diagnostic (filename : pystr) (e : exception) : message :=
  match exc_kind e with
  | FileNotFoundError => MsgFileNotFound filename
  | _ => MsgReadError e
  end.

(** What every run prints first. *)
Definition banner : trace :=
  [Print MsgBanner; Print MsgAuthReminder; Print MsgBlank].

(** What the existence checker logs for an answer. *)
Definition unexpected_log (project_id : pystr) (answer : option exception) : trace :=
  match answer with
  | None => []
  | Some e =>
      if status_not_found_or_denied e then []
      else [Print (MsgUnexpected project_id e)]
  end.

Definition is_found (answer : option exception) : bool :=
  match answer with None => true | Some _ => false end.

(** The requests of a trace, in order. *)
Fixpoint lookups (tr : trace) : list pystr :=
  match tr with
  | [] => []
  | GetProject name :: tr' => name :: lookups tr'
  | _ :: tr' => lookups tr'
  end.

(** The per-item lines of a trace. *)
Definition is_item_line (e : event) : bool :=
  match e with
  | Print (MsgInvalid _ _ _) | Print (MsgStatus _ _ _ _) => true
  | _ => false
  end.

(** The three counts of the summary. *)
Definition is_summary_count (e : event) : bool :=
  match e with
  | Print (MsgTotal _) | Print (MsgAvailable _) | Print (MsgTaken _) => true
  | _ => false
  end.

End Vocabulary.

(** ** Concrete runtimes and worlds *)

(** The lower-case mapping of the interpreter above the ASCII range
    ([_PyUnicode_ToLowerFull] of CPython 3.11, Unicode 14.0.0): every
    code point from 128 on that [str.lower] changes, with what it
    becomes.  One code point, 304, becomes two. *)
Definition LOWER_TABLE : list (char * list char) :=
  [
   (192, [224]); (193, [225]); (194, [226]); (195, [227]); (196, [228]);
   (197, [229]); (198, [230]); (199, [231]); (200, [232]); (201, [233]);
   (202, [234]); (203, [235]); (204, [236]); (205, [237]); (206, [238]);
   (207, [239]); (208, [240]); (209, [241]); (210, [242]); (211, [243]);
   (212, [244]); (213, [245]); (214, [246]); (216, [248]); (217, [249]);
   (218, [250]); (219, [251]); (220, [252]); (221, [253]); (222, [254]);
   (256, [257]); (258, [259]); (260, [261]); (262, [263]); (264, [265]);
   (266, [267]); (268, [269]); (270, [271]); (272, [273]); (274, [275]);
   (276, [277]); (278, [279]); (280, [281]); (282, [283]); (284, [285]);
   (286, [287]); (288, [289]); (290, [291]); (292, [293]); (294, [295]);
   (296, [297]); (298, [299]); (300, [301]); (302, [303]); (304, [105; 775]);
   (306, [307]); (308, [309]); (310, [311]); (313, [314]); (315, [316]);
   (317, [318]); (319, [320]); (321, [322]); (323, [324]); (325, [326]);
   (327, [328]); (330, [331]); (332, [333]); (334, [335]); (336, [337]);
   (338, [339]); (340, [341]); (342, [343]); (344, [345]); (346, [347]);
   (348, [349]); (350, [351]); (352, [353]); (354, [355]); (356, [357]);
   (358, [359]); (360, [361]); (362, [363]); (364, [365]); (366, [367]);
   (368, [369]); (370, [371]); (372, [373]); (374, [375]); (376, [255]);
   (377, [378]); (379, [380]); (381, [382]); (385, [595]); (386, [387]);
   (388, [389]); (390, [596]); (391, [392]); (393, [598]); (394, [599]);
   (395, [396]); (398, [477]); (399, [601]); (400, [603]); (401, [402]);
   (403, [608]); (404, [611]); (406, [617]); (407, [616]); (408, [409]);
   (412, [623]); (413, [626]); (415, [629]); (416, [417]); (418, [419]);
   (420, [421]); (422, [640]); (423, [424]); (425, [643]); (428, [429]);
   (430, [648]); (431, [432]); (433, [650]); (434, [651]); (435, [436]);
   (437, [438]); (439, [658]); (440, [441]); (444, [445]); (452, [454]);
   (453, [454]); (455, [457]); (456, [457]); (458, [460]); (459, [460]);
   (461, [462]); (463, [464]); (465, [466]); (467, [468]); (469, [470]);
   (471, [472]); (473, [474]); (475, [476]); (478, [479]); (480, [481]);
   (482, [483]); (484, [485]); (486, [487]); (488, [489]); (490, [491]);
   (492, [493]); (494, [495]); (497, [499]); (498, [499]); (500, [501]);
   (502, [405]); (503, [447]); (504, [505]); (506, [507]); (508, [509]);
   (510, [511]); (512, [513]); (514, [515]); (516, [517]); (518, [519]);
   (520, [521]); (522, [523]); (524, [525]); (526, [527]); (528, [529]);
   (530, [531]); (532, [533]); (534, [535]); (536, [537]); (538, [539]);
   (540, [541]); (542, [543]); (544, [414]); (546, [547]); (548, [549]);
   (550, [551]); (552, [553]); (554, [555]); (556, [557]); (558, [559]);
   (560, [561]); (562, [563]); (570, [11365]); (571, [572]); (573, [410]);
   (574, [11366]); (577, [578]); (579, [384]); (580, [649]); (581, [652]);
   (582, [583]); (584, [585]); (586, [587]); (588, [589]); (590, [591]);
   (880, [881]); (882, [883]); (886, [887]); (895, [1011]); (902, [940]);
   (904, [941]); (905, [942]); (906, [943]); (908, [972]); (910, [973]);
   (911, [974]); (913, [945]); (914, [946]); (915, [947]); (916, [948]);
   (917, [949]); (918, [950]); (919, [951]); (920, [952]); (921, [953]);
   (922, [954]); (923, [955]); (924, [956]); (925, [957]); (926, [958]);
   (927, [959]); (928, [960]); (929, [961]); (931, [963]); (932, [964]);
   (933, [965]); (934, [966]); (935, [967]); (936, [968]); (937, [969]);
   (938, [970]); (939, [971]); (975, [983]); (984, [985]); (986, [987]);
   (988, [989]); (990, [991]); (992, [993]); (994, [995]); (996, [997]);
   (998, [999]); (1000, [1001]); (1002, [1003]); (1004, [1005]); (1006, [1007]);
   (1012, [952]); (1015, [1016]); (1017, [1010]); (1018, [1019]); (1021, [891]);
   (1022, [892]); (1023, [893]); (1024, [1104]); (1025, [1105]); (1026, [1106]);
   (1027, [1107]); (1028, [1108]); (1029, [1109]); (1030, [1110]); (1031, [1111]);
   (1032, [1112]); (1033, [1113]); (1034, [1114]); (1035, [1115]); (1036, [1116]);
   (1037, [1117]); (1038, [1118]); (1039, [1119]); (1040, [1072]); (1041, [1073]);
   (1042, [1074]); (1043, [1075]); (1044, [1076]); (1045, [1077]); (1046, [1078]);
   (1047, [1079]); (1048, [1080]); (1049, [1081]); (1050, [1082]); (1051, [1083]);
   (1052, [1084]); (1053, [1085]); (1054, [1086]); (1055, [1087]); (1056, [1088]);
   (1057, [1089]); (1058, [1090]); (1059, [1091]); (1060, [1092]); (1061, [1093]);
   (1062, [1094]); (1063, [1095]); (1064, [1096]); (1065, [1097]); (1066, [1098]);
   (1067, [1099]); (1068, [1100]); (1069, [1101]); (1070, [1102]); (1071, [1103]);
   (1120, [1121]); (1122, [1123]); (1124, [1125]); (1126, [1127]); (1128, [1129]);
   (1130, [1131]); (1132, [1133]); (1134, [1135]); (1136, [1137]); (1138, [1139]);
   (1140, [1141]); (1142, [1143]); (1144, [1145]); (1146, [1147]); (1148, [1149]);
   (1150, [1151]); (1152, [1153]); (1162, [1163]); (1164, [1165]); (1166, [1167]);
   (1168, [1169]); (1170, [1171]); (1172, [1173]); (1174, [1175]); (1176, [1177]);
   (1178, [1179]); (1180, [1181]); (1182, [1183]); (1184, [1185]); (1186, [1187]);
   (1188, [1189]); (1190, [1191]); (1192, [1193]); (1194, [1195]); (1196, [1197]);
   (1198, [1199]); (1200, [1201]); (1202, [1203]); (1204, [1205]); (1206, [1207]);
   (1208, [1209]); (1210, [1211]); (1212, [1213]); (1214, [1215]); (1216, [1231]);
   (1217, [1218]); (1219, [1220]); (1221, [1222]); (1223, [1224]); (1225, [1226]);
   (1227, [1228]); (1229, [1230]); (1232, [1233]); (1234, [1235]); (1236, [1237]);
   (1238, [1239]); (1240, [1241]); (1242, [1243]); (1244, [1245]); (1246, [1247]);
   (1248, [1249]); (1250, [1251]); (1252, [1253]); (1254, [1255]); (1256, [1257]);
   (1258, [1259]); (1260, [1261]); (1262, [1263]); (1264, [1265]); (1266, [1267]);
   (1268, [1269]); (1270, [1271]); (1272, [1273]); (1274, [1275]); (1276, [1277]);
   (1278, [1279]); (1280, [1281]); (1282, [1283]); (1284, [1285]); (1286, [1287]);
   (1288, [1289]); (1290, [1291]); (1292, [1293]); (1294, [1295]); (1296, [1297]);
   (1298, [1299]); (1300, [1301]); (1302, [1303]); (1304, [1305]); (1306, [1307]);
   (1308, [1309]); (1310, [1311]); (1312, [1313]); (1314, [1315]); (1316, [1317]);
   (1318, [1319]); (1320, [1321]); (1322, [1323]); (1324, [1325]); (1326, [1327]);
   (1329, [1377]); (1330, [1378]); (1331, [1379]); (1332, [1380]); (1333, [1381]);
   (1334, [1382]); (1335, [1383]); (1336, [1384]); (1337, [1385]); (1338, [1386]);
   (1339, [1387]); (1340, [1388]); (1341, [1389]); (1342, [1390]); (1343, [1391]);
   (1344, [1392]); (1345, [1393]); (1346, [1394]); (1347, [1395]); (1348, [1396]);
   (1349, [1397]); (1350, [1398]); (1351, [1399]); (1352, [1400]); (1353, [1401]);
   (1354, [1402]); (1355, [1403]); (1356, [1404]); (1357, [1405]); (1358, [1406]);
   (1359, [1407]); (1360, [1408]); (1361, [1409]); (1362, [1410]); (1363, [1411]);
   (1364, [1412]); (1365, [1413]); (1366, [1414]); (4256, [11520]); (4257, [11521]);
   (4258, [11522]); (4259, [11523]); (4260, [11524]); (4261, [11525]); (4262, [11526]);
   (4263, [11527]); (4264, [11528]); (4265, [11529]); (4266, [11530]); (4267, [11531]);
   (4268, [11532]); (4269, [11533]); (4270, [11534]); (4271, [11535]); (4272, [11536]);
   (4273, [11537]); (4274, [11538]); (4275, [11539]); (4276, [11540]); (4277, [11541]);
   (4278, [11542]); (4279, [11543]); (4280, [11544]); (4281, [11545]); (4282, [11546]);
   (4283, [11547]); (4284, [11548]); (4285, [11549]); (4286, [11550]); (4287, [11551]);
   (4288, [11552]); (4289, [11553]); (4290, [11554]); (4291, [11555]); (4292, [11556]);
   (4293, [11557]); (4295, [11559]); (4301, [11565]); (5024, [43888]); (5025, [43889]);
   (5026, [43890]); (5027, [43891]); (5028, [43892]); (5029, [43893]); (5030, [43894]);
   (5031, [43895]); (5032, [43896]); (5033, [43897]); (5034, [43898]); (5035, [43899]);
   (5036, [43900]); (5037, [43901]); (5038, [43902]); (5039, [43903]); (5040, [43904]);
   (5041, [43905]); (5042, [43906]); (5043, [43907]); (5044, [43908]); (5045, [43909]);
   (5046, [43910]); (5047, [43911]); (5048, [43912]); (5049, [43913]); (5050, [43914]);
   (5051, [43915]); (5052, [43916]); (5053, [43917]); (5054, [43918]); (5055, [43919]);
   (5056, [43920]); (5057, [43921]); (5058, [43922]); (5059, [43923]); (5060, [43924]);
   (5061, [43925]); (5062, [43926]); (5063, [43927]); (5064, [43928]); (5065, [43929]);
   (5066, [43930]); (5067, [43931]); (5068, [43932]); (5069, [43933]); (5070, [43934]);
   (5071, [43935]); (5072, [43936]); (5073, [43937]); (5074, [43938]); (5075, [43939]);
   (5076, [43940]); (5077, [43941]); (5078, [43942]); (5079, [43943]); (5080, [43944]);
   (5081, [43945]); (5082, [43946]); (5083, [43947]); (5084, [43948]); (5085, [43949]);
   (5086, [43950]); (5087, [43951]); (5088, [43952]); (5089, [43953]); (5090, [43954]);
   (5091, [43955]); (5092, [43956]); (5093, [43957]); (5094, [43958]); (5095, [43959]);
   (5096, [43960]); (5097, [43961]); (5098, [43962]); (5099, [43963]); (5100, [43964]);
   (5101, [43965]); (5102, [43966]); (5103, [43967]); (5104, [5112]); (5105, [5113]);
   (5106, [5114]); (5107, [5115]); (5108, [5116]); (5109, [5117]); (7312, [4304]);
   (7313, [4305]); (7314, [4306]); (7315, [4307]); (7316, [4308]); (7317, [4309]);
   (7318, [4310]); (7319, [4311]); (7320, [4312]); (7321, [4313]); (7322, [4314]);
   (7323, [4315]); (7324, [4316]); (7325, [4317]); (7326, [4318]); (7327, [4319]);
   (7328, [4320]); (7329, [4321]); (7330, [4322]); (7331, [4323]); (7332, [4324]);
   (7333, [4325]); (7334, [4326]); (7335, [4327]); (7336, [4328]); (7337, [4329]);
   (7338, [4330]); (7339, [4331]); (7340, [4332]); (7341, [4333]); (7342, [4334]);
   (7343, [4335]); (7344, [4336]); (7345, [4337]); (7346, [4338]); (7347, [4339]);
   (7348, [4340]); (7349, [4341]); (7350, [4342]); (7351, [4343]); (7352, [4344]);
   (7353, [4345]); (7354, [4346]); (7357, [4349]); (7358, [4350]); (7359, [4351]);
   (7680, [7681]); (7682, [7683]); (7684, [7685]); (7686, [7687]); (7688, [7689]);
   (7690, [7691]); (7692, [7693]); (7694, [7695]); (7696, [7697]); (7698, [7699]);
   (7700, [7701]); (7702, [7703]); (7704, [7705]); (7706, [7707]); (7708, [7709]);
   (7710, [7711]); (7712, [7713]); (7714, [7715]); (7716, [7717]); (7718, [7719]);
   (7720, [7721]); (7722, [7723]); (7724, [7725]); (7726, [7727]); (7728, [7729]);
   (7730, [7731]); (7732, [7733]); (7734, [7735]); (7736, [7737]); (7738, [7739]);
   (7740, [7741]); (7742, [7743]); (7744, [7745]); (7746, [7747]); (7748, [7749]);
   (7750, [7751]); (7752, [7753]); (7754, [7755]); (7756, [7757]); (7758, [7759]);
   (7760, [7761]); (7762, [7763]); (7764, [7765]); (7766, [7767]); (7768, [7769]);
   (7770, [7771]); (7772, [7773]); (7774, [7775]); (7776, [7777]); (7778, [7779]);
   (7780, [7781]); (7782, [7783]); (7784, [7785]); (7786, [7787]); (7788, [7789]);
   (7790, [7791]); (7792, [7793]); (7794, [7795]); (7796, [7797]); (7798, [7799]);
   (7800, [7801]); (7802, [7803]); (7804, [7805]); (7806, [7807]); (7808, [7809]);
   (7810, [7811]); (7812, [7813]); (7814, [7815]); (7816, [7817]); (7818, [7819]);
   (7820, [7821]); (7822, [7823]); (7824, [7825]); (7826, [7827]); (7828, [7829]);
   (7838, [223]); (7840, [7841]); (7842, [7843]); (7844, [7845]); (7846, [7847]);
   (7848, [7849]); (7850, [7851]); (7852, [7853]); (7854, [7855]); (7856, [7857]);
   (7858, [7859]); (7860, [7861]); (7862, [7863]); (7864, [7865]); (7866, [7867]);
   (7868, [7869]); (7870, [7871]); (7872, [7873]); (7874, [7875]); (7876, [7877]);
   (7878, [7879]); (7880, [7881]); (7882, [7883]); (7884, [7885]); (7886, [7887]);
   (7888, [7889]); (7890, [7891]); (7892, [7893]); (7894, [7895]); (7896, [7897]);
   (7898, [7899]); (7900, [7901]); (7902, [7903]); (7904, [7905]); (7906, [7907]);
   (7908, [7909]); (7910, [7911]); (7912, [7913]); (7914, [7915]); (7916, [7917]);
   (7918, [7919]); (7920, [7921]); (7922, [7923]); (7924, [7925]); (7926, [7927]);
   (7928, [7929]); (7930, [7931]); (7932, [7933]); (7934, [7935]); (7944, [7936]);
   (7945, [7937]); (7946, [7938]); (7947, [7939]); (7948, [7940]); (7949, [7941]);
   (7950, [7942]); (7951, [7943]); (7960, [7952]); (7961, [7953]); (7962, [7954]);
   (7963, [7955]); (7964, [7956]); (7965, [7957]); (7976, [7968]); (7977, [7969]);
   (7978, [7970]); (7979, [7971]); (7980, [7972]); (7981, [7973]); (7982, [7974]);
   (7983, [7975]); (7992, [7984]); (7993, [7985]); (7994, [7986]); (7995, [7987]);
   (7996, [7988]); (7997, [7989]); (7998, [7990]); (7999, [7991]); (8008, [8000]);
   (8009, [8001]); (8010, [8002]); (8011, [8003]); (8012, [8004]); (8013, [8005]);
   (8025, [8017]); (8027, [8019]); (8029, [8021]); (8031, [8023]); (8040, [8032]);
   (8041, [8033]); (8042, [8034]); (8043, [8035]); (8044, [8036]); (8045, [8037]);
   (8046, [8038]); (8047, [8039]); (8072, [8064]); (8073, [8065]); (8074, [8066]);
   (8075, [8067]); (8076, [8068]); (8077, [8069]); (8078, [8070]); (8079, [8071]);
   (8088, [8080]); (8089, [8081]); (8090, [8082]); (8091, [8083]); (8092, [8084]);
   (8093, [8085]); (8094, [8086]); (8095, [8087]); (8104, [8096]); (8105, [8097]);
   (8106, [8098]); (8107, [8099]); (8108, [8100]); (8109, [8101]); (8110, [8102]);
   (8111, [8103]); (8120, [8112]); (8121, [8113]); (8122, [8048]); (8123, [8049]);
   (8124, [8115]); (8136, [8050]); (8137, [8051]); (8138, [8052]); (8139, [8053]);
   (8140, [8131]); (8152, [8144]); (8153, [8145]); (8154, [8054]); (8155, [8055]);
   (8168, [8160]); (8169, [8161]); (8170, [8058]); (8171, [8059]); (8172, [8165]);
   (8184, [8056]); (8185, [8057]); (8186, [8060]); (8187, [8061]); (8188, [8179]);
   (8486, [969]); (8490, [107]); (8491, [229]); (8498, [8526]); (8544, [8560]);
   (8545, [8561]); (8546, [8562]); (8547, [8563]); (8548, [8564]); (8549, [8565]);
   (8550, [8566]); (8551, [8567]); (8552, [8568]); (8553, [8569]); (8554, [8570]);
   (8555, [8571]); (8556, [8572]); (8557, [8573]); (8558, [8574]); (8559, [8575]);
   (8579, [8580]); (9398, [9424]); (9399, [9425]); (9400, [9426]); (9401, [9427]);
   (9402, [9428]); (9403, [9429]); (9404, [9430]); (9405, [9431]); (9406, [9432]);
   (9407, [9433]); (9408, [9434]); (9409, [9435]); (9410, [9436]); (9411, [9437]);
   (9412, [9438]); (9413, [9439]); (9414, [9440]); (9415, [9441]); (9416, [9442]);
   (9417, [9443]); (9418, [9444]); (9419, [9445]); (9420, [9446]); (9421, [9447]);
   (9422, [9448]); (9423, [9449]); (11264, [11312]); (11265, [11313]); (11266, [11314]);
   (11267, [11315]); (11268, [11316]); (11269, [11317]); (11270, [11318]); (11271, [11319]);
   (11272, [11320]); (11273, [11321]); (11274, [11322]); (11275, [11323]); (11276, [11324]);
   (11277, [11325]); (11278, [11326]); (11279, [11327]); (11280, [11328]); (11281, [11329]);
   (11282, [11330]); (11283, [11331]); (11284, [11332]); (11285, [11333]); (11286, [11334]);
   (11287, [11335]); (11288, [11336]); (11289, [11337]); (11290, [11338]); (11291, [11339]);
   (11292, [11340]); (11293, [11341]); (11294, [11342]); (11295, [11343]); (11296, [11344]);
   (11297, [11345]); (11298, [11346]); (11299, [11347]); (11300, [11348]); (11301, [11349]);
   (11302, [11350]); (11303, [11351]); (11304, [11352]); (11305, [11353]); (11306, [11354]);
   (11307, [11355]); (11308, [11356]); (11309, [11357]); (11310, [11358]); (11311, [11359]);
   (11360, [11361]); (11362, [619]); (11363, [7549]); (11364, [637]); (11367, [11368]);
   (11369, [11370]); (11371, [11372]); (11373, [593]); (11374, [625]); (11375, [592]);
   (11376, [594]); (11378, [11379]); (11381, [11382]); (11390, [575]); (11391, [576]);
   (11392, [11393]); (11394, [11395]); (11396, [11397]); (11398, [11399]); (11400, [11401]);
   (11402, [11403]); (11404, [11405]); (11406, [11407]); (11408, [11409]); (11410, [11411]);
   (11412, [11413]); (11414, [11415]); (11416, [11417]); (11418, [11419]); (11420, [11421]);
   (11422, [11423]); (11424, [11425]); (11426, [11427]); (11428, [11429]); (11430, [11431]);
   (11432, [11433]); (11434, [11435]); (11436, [11437]); (11438, [11439]); (11440, [11441]);
   (11442, [11443]); (11444, [11445]); (11446, [11447]); (11448, [11449]); (11450, [11451]);
   (11452, [11453]); (11454, [11455]); (11456, [11457]); (11458, [11459]); (11460, [11461]);
   (11462, [11463]); (11464, [11465]); (11466, [11467]); (11468, [11469]); (11470, [11471]);
   (11472, [11473]); (11474, [11475]); (11476, [11477]); (11478, [11479]); (11480, [11481]);
   (11482, [11483]); (11484, [11485]); (11486, [11487]); (11488, [11489]); (11490, [11491]);
   (11499, [11500]); (11501, [11502]); (11506, [11507]); (42560, [42561]); (42562, [42563]);
   (42564, [42565]); (42566, [42567]); (42568, [42569]); (42570, [42571]); (42572, [42573]);
   (42574, [42575]); (42576, [42577]); (42578, [42579]); (42580, [42581]); (42582, [42583]);
   (42584, [42585]); (42586, [42587]); (42588, [42589]); (42590, [42591]); (42592, [42593]);
   (42594, [42595]); (42596, [42597]); (42598, [42599]); (42600, [42601]); (42602, [42603]);
   (42604, [42605]); (42624, [42625]); (42626, [42627]); (42628, [42629]); (42630, [42631]);
   (42632, [42633]); (42634, [42635]); (42636, [42637]); (42638, [42639]); (42640, [42641]);
   (42642, [42643]); (42644, [42645]); (42646, [42647]); (42648, [42649]); (42650, [42651]);
   (42786, [42787]); (42788, [42789]); (42790, [42791]); (42792, [42793]); (42794, [42795]);
   (42796, [42797]); (42798, [42799]); (42802, [42803]); (42804, [42805]); (42806, [42807]);
   (42808, [42809]); (42810, [42811]); (42812, [42813]); (42814, [42815]); (42816, [42817]);
   (42818, [42819]); (42820, [42821]); (42822, [42823]); (42824, [42825]); (42826, [42827]);
   (42828, [42829]); (42830, [42831]); (42832, [42833]); (42834, [42835]); (42836, [42837]);
   (42838, [42839]); (42840, [42841]); (42842, [42843]); (42844, [42845]); (42846, [42847]);
   (42848, [42849]); (42850, [42851]); (42852, [42853]); (42854, [42855]); (42856, [42857]);
   (42858, [42859]); (42860, [42861]); (42862, [42863]); (42873, [42874]); (42875, [42876]);
   (42877, [7545]); (42878, [42879]); (42880, [42881]); (42882, [42883]); (42884, [42885]);
   (42886, [42887]); (42891, [42892]); (42893, [613]); (42896, [42897]); (42898, [42899]);
   (42902, [42903]); (42904, [42905]); (42906, [42907]); (42908, [42909]); (42910, [42911]);
   (42912, [42913]); (42914, [42915]); (42916, [42917]); (42918, [42919]); (42920, [42921]);
   (42922, [614]); (42923, [604]); (42924, [609]); (42925, [620]); (42926, [618]);
   (42928, [670]); (42929, [647]); (42930, [669]); (42931, [43859]); (42932, [42933]);
   (42934, [42935]); (42936, [42937]); (42938, [42939]); (42940, [42941]); (42942, [42943]);
   (42944, [42945]); (42946, [42947]); (42948, [42900]); (42949, [642]); (42950, [7566]);
   (42951, [42952]); (42953, [42954]); (42960, [42961]); (42966, [42967]); (42968, [42969]);
   (42997, [42998]); (65313, [65345]); (65314, [65346]); (65315, [65347]); (65316, [65348]);
   (65317, [65349]); (65318, [65350]); (65319, [65351]); (65320, [65352]); (65321, [65353]);
   (65322, [65354]); (65323, [65355]); (65324, [65356]); (65325, [65357]); (65326, [65358]);
   (65327, [65359]); (65328, [65360]); (65329, [65361]); (65330, [65362]); (65331, [65363]);
   (65332, [65364]); (65333, [65365]); (65334, [65366]); (65335, [65367]); (65336, [65368]);
   (65337, [65369]); (65338, [65370]); (66560, [66600]); (66561, [66601]); (66562, [66602]);
   (66563, [66603]); (66564, [66604]); (66565, [66605]); (66566, [66606]); (66567, [66607]);
   (66568, [66608]); (66569, [66609]); (66570, [66610]); (66571, [66611]); (66572, [66612]);
   (66573, [66613]); (66574, [66614]); (66575, [66615]); (66576, [66616]); (66577, [66617]);
   (66578, [66618]); (66579, [66619]); (66580, [66620]); (66581, [66621]); (66582, [66622]);
   (66583, [66623]); (66584, [66624]); (66585, [66625]); (66586, [66626]); (66587, [66627]);
   (66588, [66628]); (66589, [66629]); (66590, [66630]); (66591, [66631]); (66592, [66632]);
   (66593, [66633]); (66594, [66634]); (66595, [66635]); (66596, [66636]); (66597, [66637]);
   (66598, [66638]); (66599, [66639]); (66736, [66776]); (66737, [66777]); (66738, [66778]);
   (66739, [66779]); (66740, [66780]); (66741, [66781]); (66742, [66782]); (66743, [66783]);
   (66744, [66784]); (66745, [66785]); (66746, [66786]); (66747, [66787]); (66748, [66788]);
   (66749, [66789]); (66750, [66790]); (66751, [66791]); (66752, [66792]); (66753, [66793]);
   (66754, [66794]); (66755, [66795]); (66756, [66796]); (66757, [66797]); (66758, [66798]);
   (66759, [66799]); (66760, [66800]); (66761, [66801]); (66762, [66802]); (66763, [66803]);
   (66764, [66804]); (66765, [66805]); (66766, [66806]); (66767, [66807]); (66768, [66808]);
   (66769, [66809]); (66770, [66810]); (66771, [66811]); (66928, [66967]); (66929, [66968]);
   (66930, [66969]); (66931, [66970]); (66932, [66971]); (66933, [66972]); (66934, [66973]);
   (66935, [66974]); (66936, [66975]); (66937, [66976]); (66938, [66977]); (66940, [66979]);
   (66941, [66980]); (66942, [66981]); (66943, [66982]); (66944, [66983]); (66945, [66984]);
   (66946, [66985]); (66947, [66986]); (66948, [66987]); (66949, [66988]); (66950, [66989]);
   (66951, [66990]); (66952, [66991]); (66953, [66992]); (66954, [66993]); (66956, [66995]);
   (66957, [66996]); (66958, [66997]); (66959, [66998]); (66960, [66999]); (66961, [67000]);
   (66962, [67001]); (66964, [67003]); (66965, [67004]); (68736, [68800]); (68737, [68801]);
   (68738, [68802]); (68739, [68803]); (68740, [68804]); (68741, [68805]); (68742, [68806]);
   (68743, [68807]); (68744, [68808]); (68745, [68809]); (68746, [68810]); (68747, [68811]);
   (68748, [68812]); (68749, [68813]); (68750, [68814]); (68751, [68815]); (68752, [68816]);
   (68753, [68817]); (68754, [68818]); (68755, [68819]); (68756, [68820]); (68757, [68821]);
   (68758, [68822]); (68759, [68823]); (68760, [68824]); (68761, [68825]); (68762, [68826]);
   (68763, [68827]); (68764, [68828]); (68765, [68829]); (68766, [68830]); (68767, [68831]);
   (68768, [68832]); (68769, [68833]); (68770, [68834]); (68771, [68835]); (68772, [68836]);
   (68773, [68837]); (68774, [68838]); (68775, [68839]); (68776, [68840]); (68777, [68841]);
   (68778, [68842]); (68779, [68843]); (68780, [68844]); (68781, [68845]); (68782, [68846]);
   (68783, [68847]); (68784, [68848]); (68785, [68849]); (68786, [68850]); (71840, [71872]);
   (71841, [71873]); (71842, [71874]); (71843, [71875]); (71844, [71876]); (71845, [71877]);
   (71846, [71878]); (71847, [71879]); (71848, [71880]); (71849, [71881]); (71850, [71882]);
   (71851, [71883]); (71852, [71884]); (71853, [71885]); (71854, [71886]); (71855, [71887]);
   (71856, [71888]); (71857, [71889]); (71858, [71890]); (71859, [71891]); (71860, [71892]);
   (71861, [71893]); (71862, [71894]); (71863, [71895]); (71864, [71896]); (71865, [71897]);
   (71866, [71898]); (71867, [71899]); (71868, [71900]); (71869, [71901]); (71870, [71902]);
   (71871, [71903]); (93760, [93792]); (93761, [93793]); (93762, [93794]); (93763, [93795]);
   (93764, [93796]); (93765, [93797]); (93766, [93798]); (93767, [93799]); (93768, [93800]);
   (93769, [93801]); (93770, [93802]); (93771, [93803]); (93772, [93804]); (93773, [93805]);
   (93774, [93806]); (93775, [93807]); (93776, [93808]); (93777, [93809]); (93778, [93810]);
   (93779, [93811]); (93780, [93812]); (93781, [93813]); (93782, [93814]); (93783, [93815]);
   (93784, [93816]); (93785, [93817]); (93786, [93818]); (93787, [93819]); (93788, [93820]);
   (93789, [93821]); (93790, [93822]); (93791, [93823]); (125184, [125218]); (125185, [125219]);
   (125186, [125220]); (125187, [125221]); (125188, [125222]); (125189, [125223]); (125190, [125224]);
   (125191, [125225]); (125192, [125226]); (125193, [125227]); (125194, [125228]); (125195, [125229]);
   (125196, [125230]); (125197, [125231]); (125198, [125232]); (125199, [125233]); (125200, [125234]);
   (125201, [125235]); (125202, [125236]); (125203, [125237]); (125204, [125238]); (125205, [125239]);
   (125206, [125240]); (125207, [125241]); (125208, [125242]); (125209, [125243]); (125210, [125244]);
   (125211, [125245]); (125212, [125246]); (125213, [125247]); (125214, [125248]); (125215, [125249]);
   (125216, [125250]); (125217, [125251])
  ].

Fixpoint table_lookup (c : char) (table : list (char * list char))
    : option (list char) :=
  match table with
  | [] => None
  | (k, image) :: rest => if c =? k then Some image else table_lookup c rest
  end.

(** A code point outside the table is its own lower-case form. *)
Definition cpython_tolower (c : char) : list char :=
  match table_lookup c LOWER_TABLE with
  | Some image => image
  | None => [c]
  end.

(** A database with the case table of the interpreter. *)
Definition with_cpython_case (U : UnicodeData) : UnicodeData := {|
  ucd_alpha := @ucd_alpha U;
  ucd_numeric := @ucd_numeric U;
  ucd_space := @ucd_space U;
  ucd_lower := cpython_tolower;
  ucd_cased := @ucd_cased U;
  ucd_case_ignorable := @ucd_case_ignorable U
|}.

(** Lower-casing leaves the code point alone: it is no capital sigma, no
    ASCII capital, and above the ASCII range it is outside the table. *)
Definition stays_in_lower (d : char) : bool :=
  negb (d =? CAPITAL_SIGMA)
  && (if is_ascii d then negb (ascii_isupper d)
      else match table_lookup d LOWER_TABLE with
           | None => true
           | Some _ => false
           end).

(** Every image of the table stays as it is. *)
Definition table_images_stay : bool :=
  forallb (fun entry => forallb stays_in_lower (snd entry)) LOWER_TABLE.

(** A database for running the model: the tables of the runtime, cut
    down to Latin-1 and the three Greek sigmas, with the whole case
    table. *)
Definition is_sigma (c : char) : bool :=
  (c =? CAPITAL_SIGMA) || (c =? FINAL_SIGMA) || (c =? SMALL_SIGMA).

Definition latin1_letter (c : char) : bool :=
  (c =? 0xAA) || (c =? 0xB5) || (c =? 0xBA)
  || ((0xC0 <=? c) && (c <=? 0xFF) && negb (c =? 0xD7) && negb (c =? 0xF7))
  || is_sigma c.

Definition latin1 : UnicodeData := {|
  ucd_alpha := latin1_letter;
  ucd_numeric c :=
    (c =? 0xB2) || (c =? 0xB3) || (c =? 0xB9) || ((0xBC <=? c) && (c <=? 0xBE));
  ucd_space c := (c =? 0x85) || (c =? 0xA0);
  ucd_lower := cpython_tolower;
  ucd_cased c := ascii_isupper c || ascii_islower c || latin1_letter c;
  ucd_case_ignorable c :=
    (c =? 0x27) || (c =? 0x2E) || (c =? 0x3A) || (c =? 0x5E) || (c =? 0x60)
    || (c =? 0xA8) || (c =? 0xAD) || (c =? 0xAF) || (c =? 0xB4)
    || (c =? 0xB7) || (c =? 0xB8)
|}.

(** The error of [time.sleep] on a length whose count of nanoseconds
    does not fit 64 bits. *)
Definition overflow_error : exception :=
  {| exc_kind := OverflowError; exc_status := None;
     exc_text := py "timestamp too large to convert to C _PyTime_t" |}.

(** The error of the system call on a pause that would end after the
    clock does. *)
Definition invalid_argument : exception :=
  {| exc_kind := OSError; exc_status := None;
     exc_text := py "[Errno 22] Invalid argument" |}.

(** A clock for running the model: 64 bits of nanoseconds, on a machine
    that has run for five hours. *)
Definition sample_clock : Clock := {|
  clock_slack := 9223353795854775807;
  clock_refusal secs :=
    if Qle_bool 0 secs && Qle_bool secs (9223372036854775807 # 1000000000)
    then invalid_argument else overflow_error
|}.

Definition not_found : exception :=
  {| exc_kind := OtherError; exc_status := Some 404%Z; exc_text := py "not found" |}.

Definition permission_denied : exception :=
  {| exc_kind := OtherError; exc_status := Some 403%Z; exc_text := py "permission denied" |}.

Definition rate_limited : exception :=
  {| exc_kind := OtherError; exc_status := Some 429%Z; exc_text := py "quota exceeded" |}.

Definition connection_lost : exception :=
  {| exc_kind := OtherError; exc_status := None; exc_text := py "connection reset" |}.

Definition no_such_file : exception :=
  {| exc_kind := FileNotFoundError; exc_status := None;
     exc_text := py "No such file or directory" |}.

Definition bad_encoding : exception :=
  {| exc_kind := OtherError; exc_status := None;
     exc_text := py "'utf-8' codec can't decode byte 0xff" |}.

Definition same_string (a b : pystr) : bool :=
  if list_eq_dec N.eq_dec a b then true else false.

(** A backend on which only [valid-name-1] is registered. *)
Definition one_project_backend (k : nat) (name : pystr) : option exception :=
  if same_string name (py "projects/valid-name-1") then None else Some not_found.

(** A world whose every path holds the given text. *)
Definition world_with (content : pystr) : world :=
  {| projects_client := None;
     open_text := fun _ => inr content;
     get_project := one_project_backend |}.

Definition commented_wordlist : pystr :=
  py "foo" ++ [LF; LF] ++ py "# comment" ++ [LF] ++ py "bar" ++ [LF].

Definition sample_wordlist : pystr :=
  py "ab" ++ [LF] ++ py "valid-name-1" ++ [LF] ++ py "ANOTHERNAME" ++ [LF].

Definition two_valid_names : pystr :=
  py "valid-name-1" ++ [LF] ++ py "anothername" ++ [LF].

(** A world in which no path can be opened. *)
Definition world_without_file : world :=
  {| projects_client := None;
     open_text := fun _ => inl no_such_file;
     get_project := one_project_backend |}.

(** A world whose backend is out of quota. *)
Definition world_out_of_quota : world :=
  {| projects_client := None;
     open_text := fun _ => inr sample_wordlist;
     get_project := fun _ _ => Some rate_limited |}.

(** A capital A with grave, a capital B, a capital sigma, a hyphen and a
    small c. *)
Definition accented_name : pystr := [0xC0; 66; CAPITAL_SIGMA; HYPHEN; 99].

Definition negative_delay : arguments :=
  {| wordlist := DEFAULT_WORDLIST; delay := - (1) |}.

(** [--delay 1e10] *)
Definition too_long_delay : arguments :=
  {| wordlist := DEFAULT_WORDLIST; delay := 10000000000 # 1 |}.

(** ** Further vocabulary *)

(** The events that pace a run: the requests and the pauses. *)
Definition is_request_or_sleep (e : event) : bool :=
  match e with
  | GetProject _ | Sleep _ => true
  | _ => false
  end.

(** The log line of the existence checker. *)
Definition is_unexpected_line (e : event) : bool :=
  match e with
  | Print (MsgUnexpected _ _) => true
  | _ => false
  end.

(** A trace without the log lines of the existence checker. *)
Definition without_log (tr : trace) : trace :=
  filter (fun e => negb (is_unexpected_line e)) tr.

(** The end of the summary: the list of available identifiers or the
    message that there are none. *)
Definition is_available_line (e : event) : bool :=
  match e with
  | Print MsgAvailableHeader | Print (MsgAvailableItem _)
  | Print MsgNoneAvailable => true
  | _ => false
  end.

(** What the loop can do to the outside. *)
Definition is_loop_event (e : event) : bool :=
  match e with
  | GetProject _ | Sleep _ => true
  | Print (MsgInvalid _ _ _) | Print (MsgStatus _ _ _ _)
  | Print (MsgUnexpected _ _) => true
  | _ => false
  end.

(** The end of the summary for a list of available identifiers. *)
Definition available_lines (available : list pystr) : list message :=
  match available with
  | [] => [MsgNoneAvailable]
  | _ => MsgAvailableHeader :: map MsgAvailableItem available
  end.

(** Lower-casing below 128. *)
Definition ascii_tolower (c : char) : char :=
  if ascii_isupper c then c + 32 else c.

(** A wordlist file written from entries, one per line. *)
Definition unlines (entries : list pystr) : pystr :=
  flat_map (fun entry => entry ++ [LF]) entries.

Definition is_line_end (c : char) : bool := (c =? LF) || (c =? CR).

(** Two worlds whose resource managers find the same projects, whatever
    the errors they answer with otherwise. *)
Definition same_findings (w1 w2 : world) : Prop :=
  projects_client w1 = projects_client w2
  /\ (forall path, open_text w1 path = open_text w2 path)
  /\ (forall k name,
        is_found (get_project w1 k name) = is_found (get_project w2 k name)).

(** A backend that answers every request with a permission error. *)
Definition world_all_denied : world :=
  {| projects_client := None;
     open_text := fun _ => inr sample_wordlist;
     get_project := fun _ _ => Some permission_denied |}.

(** A world in which the client cannot be built. *)
Definition world_without_credentials : world :=
  {| projects_client := Some connection_lost;
     open_text := fun _ => inl no_such_file;
     get_project := one_project_backend |}.

(** A wordlist without a valid candidate. *)
Definition short_names : pystr := py "ab" ++ [LF] ++ py "1234567" ++ [LF].

(** * Properties *)

(** ** The monad *)

Lemma bind_ret {A B} (a : A) (k : A -> io B) tr : bind (ret a) k tr = k a tr.
Proof. reflexivity. Qed.

Lemma bind_emit {B} (e : event) (k : unit -> io B) tr :
  bind (emit e) k tr = k tt (tr ++ [e]).
Proof. reflexivity. Qed.

Lemma bind_print {B} (m : message) (k : unit -> io B) tr :
  bind (print m) k tr = k tt (tr ++ [Print m]).
Proof. reflexivity. Qed.

Lemma bind_returns {A B} (c : io A) (k : A -> io B) tr a tr' :
  c tr = (Return a, tr') -> bind c k tr = k a tr'.
Proof. intros H. unfold bind. now rewrite H. Qed.

Lemma bind_raises {A B} (c : io A) (k : A -> io B) tr r tr' :
  c tr = (Raise r, tr') -> bind c k tr = (Raise r, tr').
Proof. intros H. unfold bind. now rewrite H. Qed.

(** One step of a computation whose first part is known by [H]. *)
Tactic Notation "io_step" uconstr(H) :=
  first [ rewrite (bind_returns _ _ _ _ _ H)
        | rewrite (bind_raises _ _ _ _ _ H) ].

Lemma bind_assoc {A B C} (c : io A) (k : A -> io B) (k' : B -> io C) tr :
  bind (bind c k) k' tr = bind c (fun a => bind (k a) k') tr.
Proof. unfold bind. destruct (c tr) as [[a|r] tr']; reflexivity. Qed.

(** ** The naming rule *)

Section NamingRule.
Context {U : UnicodeData} {K : Clock}.

Lemma hyphen_is_no_letter : char_isalpha HYPHEN = false.
Proof. reflexivity. Qed.

Lemma replace_hyphens (name : pystr) :
  replace HYPHEN [] name = without_hyphens name.
Proof.
  unfold replace, without_hyphens.
  induction name as [|c name IH]; simpl; [reflexivity|].
  rewrite IH. now destruct (c =? HYPHEN).
Qed.

Lemma isalnum_spec (s : pystr) :
  isalnum s = true <-> s <> [] /\ Forall (fun c => char_isalnum c = true) s.
Proof.
  unfold isalnum. destruct s as [|c s].
  - split; [discriminate | intros [H _]; now elim H].
  - rewrite forallb_forall, Forall_forall. split.
    + intros H. split; [discriminate | exact H].
    + intros [_ H]. exact H.
Qed.

(** The condition never raises: its value is the rule as one boolean. *)
Lemma meets_naming_rules_value (name : pystr) (tr : trace) :
  meets_naming_rules name tr = (Return (valid_name name), tr).
Proof.
  unfold meets_naming_rules, valid_name, py_and.
  rewrite !bind_ret.
  destruct (6 <=? List.length name)%nat eqn:Hlo; [|reflexivity].
  rewrite bind_ret.
  destruct (List.length name <=? 30)%nat; [|reflexivity].
  rewrite bind_ret.
  destruct (isalnum (replace HYPHEN [] name)); [|reflexivity].
  destruct name as [|c rest]; [discriminate Hlo|].
  simpl. unfold getitem, bind, ret. simpl.
  now rewrite andb_true_r.
Qed.

Lemma valid_name_well_formed (name : pystr) :
  valid_name name = true <-> well_formed name.
Proof.
  unfold valid_name, well_formed.
  rewrite !andb_true_iff, !Nat.leb_le, replace_hyphens, isalnum_spec.
  split.
  - intros [[[Hlo Hhi] [_ Hall]] Hfirst].
    repeat split; try assumption.
    destruct name as [|c rest]; [discriminate|].
    now exists c, rest.
  - intros [[Hlo Hhi] [Hall (c & rest & -> & Hc)]].
    repeat split; try assumption.
    unfold without_hyphens. simpl.
    destruct (c =? HYPHEN) eqn:E; [|discriminate].
    apply N.eqb_eq in E. subst c.
    rewrite hyphen_is_no_letter in Hc. discriminate.
Qed.

Lemma letters_digits_hyphens_alnum (name : pystr) :
  letters_digits_hyphens name ->
  Forall (fun c => char_isalnum c = true) (without_hyphens name).
Proof.
  unfold letters_digits_hyphens, without_hyphens.
  induction 1 as [|c name Hc _ IH]; simpl; [constructor|].
  destruct (c =? HYPHEN) eqn:E; simpl; [exact IH|].
  constructor; [|exact IH].
  unfold char_isalnum.
  destruct Hc as [Hc|[Hc|Hc]].
  - now rewrite Hc.
  - rewrite Hc. apply orb_true_r.
  - apply N.eqb_neq in E. contradiction.
Qed.

(** C2: the validator accepts a candidate exactly when its length is
    between 6 and 30, it is alphanumeric once its hyphens are removed and
    its first character is a letter.  A candidate whose first character
    is not a letter is rejected, and a candidate of letters, digits and
    hyphens with a length in range and a leading letter is accepted. *)
Theorem naming_rule_exact (name : pystr) (tr : trace) :
  (exists b, meets_naming_rules name tr = (Return b, tr)
             /\ (b = true <-> well_formed name))
  /\ ((forall c rest, name = c :: rest -> char_isalpha c = false) ->
      meets_naming_rules name tr = (Return false, tr))
  /\ (letters_digits_hyphens name ->
      (6 <= List.length name <= 30)%nat ->
      (exists c rest, name = c :: rest /\ char_isalpha c = true) ->
      meets_naming_rules name tr = (Return true, tr)).
Proof.
  rewrite meets_naming_rules_value.
  split; [|split].
  - exists (valid_name name). split; [reflexivity|].
    apply valid_name_well_formed.
  - intros Hfirst.
    destruct (valid_name name) eqn:E; [|reflexivity].
    apply valid_name_well_formed in E.
    destruct E as (_ & _ & c & rest & Hname & Hc).
    rewrite (Hfirst c rest Hname) in Hc. discriminate.
  - intros Hchars Hlen Hfirst.
    assert (valid_name name = true) as ->; [|reflexivity].
    apply valid_name_well_formed.
    repeat split; try apply Hlen; try assumption.
    now apply letters_digits_hyphens_alnum.
Qed.

(** C10: the validator returns on every string.  The length test comes
    first, so the first character is read only from a string that has
    one: a candidate shorter than six characters, the empty string among
    them, is classified invalid, although reading the first character of
    the empty string on its own raises, and whatever stands in the place
    of the last operand is not run for a short candidate. *)
Theorem naming_rule_total (name : pystr) (tr : trace) :
  (exists b, meets_naming_rules name tr = (Return b, tr))
  /\ ((List.length name < 6)%nat ->
      meets_naming_rules name tr = (Return false, tr))
  /\ ((List.length name < 6)%nat ->
      forall last : io bool,
        py_and (ret (6 <=? List.length name)%nat)
          (py_and (ret (List.length name <=? 30)%nat)
             (py_and (ret (isalnum (replace HYPHEN [] name))) last)) tr
        = (Return false, tr))
  /\ ((6 <= List.length name)%nat ->
      exists c, getitem name 0 tr = (Return c, tr))
  /\ meets_naming_rules [] tr = (Return false, tr)
  /\ exists e, getitem [] 0 tr = (Raise (Exc e), tr) /\ exc_kind e = IndexError.
Proof.
  split; [|split; [|split; [|split; [|split]]]].
  - exists (valid_name name). apply meets_naming_rules_value.
  - intros Hshort. rewrite meets_naming_rules_value. unfold valid_name.
    apply Nat.leb_gt in Hshort. now rewrite Hshort.
  - intros Hshort last. apply Nat.leb_gt in Hshort.
    unfold py_and. rewrite bind_ret. now rewrite Hshort.
  - intros Hlong. destruct name as [|c rest]; [simpl in Hlong; lia|].
    now exists c.
  - apply meets_naming_rules_value.
  - eexists. split; reflexivity.
Qed.

End NamingRule.

(** ** Lower-casing *)

Section LowerCase.
Context {U : UnicodeData} {K : Clock}.

Lemma capital_sigma_not_ascii (c : char) : c < 128 -> (c =? CAPITAL_SIGMA) = false.
Proof. intros H. apply N.eqb_neq. unfold CAPITAL_SIGMA. lia. Qed.

(** Below 128 the table is written out: the image of a character is one
    character, and it is not an upper-case letter. *)
Lemma ascii_images_settled (c : char) : c < 128 -> Forall settled (lower_images c).
Proof.
  intros Hc. unfold lower_images. rewrite (capital_sigma_not_ascii c Hc).
  unfold char_tolower, is_ascii.
  destruct (N.ltb_spec c 128) as [_|]; [|lia].
  constructor; [|constructor].
  unfold settled, char_tolower, is_ascii, ascii_isupper, CAPITAL_SIGMA.
  destruct (N.leb_spec 65 c), (N.leb_spec c 90); simpl.
  - destruct (N.ltb_spec (c + 32) 128); [|lia].
    destruct (N.leb_spec 65 (c + 32)), (N.leb_spec (c + 32) 90); simpl;
      (split; [lia | reflexivity || lia]).
  - destruct (N.ltb_spec c 128); [|lia].
    destruct (N.leb_spec 65 c), (N.leb_spec c 90); simpl;
      (split; [lia | reflexivity || lia]).
  - destruct (N.ltb_spec c 128); [|lia].
    destruct (N.leb_spec 65 c), (N.leb_spec c 90); simpl;
      (split; [lia | reflexivity || lia]).
  - destruct (N.ltb_spec c 128); [|lia].
    destruct (N.leb_spec 65 c), (N.leb_spec c 90); simpl;
      (split; [lia | reflexivity || lia]).
Qed.

Lemma handle_capital_sigma_image (before after : pystr) :
  In (handle_capital_sigma before after) (lower_images CAPITAL_SIGMA).
Proof.
  unfold handle_capital_sigma, lower_images. simpl.
  destruct (drop_while ucd_case_ignorable before) as [|c ?]; [now right; left|].
  destruct (ucd_cased c); [|now right; left].
  destruct (drop_while ucd_case_ignorable after) as [|d ?]; [now left|].
  destruct (ucd_cased d); [now right; left | now left].
Qed.

(** A string of settled characters is its own lower-case form, whatever
    stands to its left. *)
Lemma lower_from_settled (s before : pystr) :
  Forall settled s -> lower_from before s = s.
Proof.
  intros H. revert before.
  induction H as [|c s [Hsigma Hc] _ IH]; intros before; simpl; [reflexivity|].
  apply N.eqb_neq in Hsigma. rewrite Hsigma, Hc, IH. reflexivity.
Qed.

(** Lower-casing leaves settled characters only. *)
Lemma lower_from_images (s before : pystr) :
  (forall c, In c s -> Forall settled (lower_images c)) ->
  Forall settled (lower_from before s).
Proof.
  revert before.
  induction s as [|c s IH]; intros before H; simpl; [constructor|].
  apply Forall_app. split.
  - destruct (c =? CAPITAL_SIGMA) eqn:E.
    + apply N.eqb_eq in E. subst c.
      constructor; [|constructor].
      assert (Hall := H CAPITAL_SIGMA (or_introl eq_refl)).
      rewrite Forall_forall in Hall.
      apply Hall, handle_capital_sigma_image.
    + assert (Hall := H c (or_introl eq_refl)).
      unfold lower_images in Hall. now rewrite E in Hall.
  - apply IH. intros d Hd. apply H. now right.
Qed.

(** Lower-casing twice is lower-casing once, as far as the case table
    maps the characters of the string to code points that it leaves
    alone; below 128 nothing is asked of the table. *)
Lemma lower_settled_table (s : pystr) :
  settled_case_table s -> lower (lower s) = lower s.
Proof.
  intros Htable. unfold lower.
  apply lower_from_settled, lower_from_images.
  intros c Hc.
  destruct (N.lt_ge_cases c 128) as [Hascii|Hwide].
  - now apply ascii_images_settled.
  - now apply Htable.
Qed.

End LowerCase.

(** ** The case table of the interpreter *)

Lemma table_lookup_In (c : char) (table : list (char * list char))
    (image : list char) :
  table_lookup c table = Some image -> In (c, image) table.
Proof.
  induction table as [|[k ds] table IH]; simpl; [discriminate|].
  destruct (N.eqb_spec c k) as [->|_].
  - intros [= ->]. now left.
  - intros H. right. now apply IH.
Qed.

(** Checked on the table, entry by entry. *)
Lemma table_images_stay_holds : table_images_stay = true.
Proof. vm_compute. reflexivity. Qed.

Lemma stays_in_lower_settled (U : UnicodeData) (d : char) :
  stays_in_lower d = true -> settled (U:=with_cpython_case U) d.
Proof.
  unfold stays_in_lower, settled, char_tolower.
  intros H. apply andb_prop in H as [Hsigma H].
  split; [now apply N.eqb_neq, negb_true_iff|].
  destruct (is_ascii d).
  - apply negb_true_iff in H. now rewrite H.
  - cbn [ucd_lower with_cpython_case]. unfold cpython_tolower.
    destruct (table_lookup d LOWER_TABLE); [discriminate | reflexivity].
Qed.

(** Whatever the table puts in the place of a code point, it leaves
    alone; so do the two forms that a capital sigma takes. *)
Lemma cpython_images_settled (U : UnicodeData) (c : char) :
  128 <= c ->
  Forall (settled (U:=with_cpython_case U))
         (lower_images (U:=with_cpython_case U) c).
Proof.
  intros Hwide. unfold lower_images.
  destruct (c =? CAPITAL_SIGMA) eqn:Hsigma.
  - constructor; [|constructor; [|constructor]];
      apply stays_in_lower_settled; vm_compute; reflexivity.
  - unfold char_tolower, is_ascii.
    destruct (N.ltb_spec c 128) as [|_]; [lia|].
    cbn [ucd_lower with_cpython_case]. unfold cpython_tolower.
    destruct (table_lookup c LOWER_TABLE) as [image|] eqn:Hlookup.
    + apply table_lookup_In in Hlookup.
      assert (Hall := table_images_stay_holds).
      unfold table_images_stay in Hall.
      rewrite forallb_forall in Hall. specialize (Hall _ Hlookup).
      cbn [snd] in Hall. rewrite forallb_forall in Hall.
      apply Forall_forall. intros d Hd.
      now apply stays_in_lower_settled, Hall.
    + constructor; [|constructor].
      split; [now apply N.eqb_neq|].
      unfold char_tolower, is_ascii.
      destruct (N.ltb_spec c 128) as [|_]; [lia|].
      cbn [ucd_lower with_cpython_case]. unfold cpython_tolower.
      now rewrite Hlookup.
Qed.

(** C9: normalization is idempotent.  With the case table of the
    interpreter (CPython 3.11, Unicode 14.0.0), lower-casing a
    lower-cased candidate changes nothing, for every candidate, whatever
    the other tables of the database say, the two of the final-sigma rule
    among them. *)
Theorem lower_idempotent (U : UnicodeData) (s : pystr) :
  lower (U:=with_cpython_case U) (lower (U:=with_cpython_case U) s)
  = lower (U:=with_cpython_case U) s.
Proof.
  apply lower_settled_table.
  intros c _ Hwide. now apply cpython_images_settled.
Qed.

(** ** The wordlist loader *)

Section Loader.
Context {U : UnicodeData} {K : Clock}.

Lemma line_feed_is_space : char_isspace LF = true.
Proof. reflexivity. Qed.

Lemma drop_while_all (p : char -> bool) (x : pystr) :
  forallb p x = true -> drop_while p x = [].
Proof.
  induction x as [|c x IH]; simpl; [reflexivity|].
  destruct (p c); [exact IH | discriminate].
Qed.

Lemma drop_while_snoc (p : char -> bool) (x : pystr) (w : char) :
  p w = true ->
  drop_while p (x ++ [w]) = if forallb p x then [] else drop_while p x ++ [w].
Proof.
  intros Hw. induction x as [|c x IH]; simpl.
  - now rewrite Hw.
  - destruct (p c); simpl; [exact IH | reflexivity].
Qed.

Lemma rstrip_snoc (x : pystr) (w : char) :
  char_isspace w = true -> rstrip (x ++ [w]) = rstrip x.
Proof.
  intros Hw. unfold rstrip. rewrite rev_app_distr. simpl. now rewrite Hw.
Qed.

(** White space at the end of a line, its terminator included, does not
    survive [strip]. *)
Lemma strip_snoc (x : pystr) (w : char) :
  char_isspace w = true -> strip (x ++ [w]) = strip x.
Proof.
  intros Hw. unfold strip, lstrip.
  rewrite (drop_while_snoc _ _ _ Hw).
  destruct (forallb char_isspace x) eqn:E.
  - now rewrite (drop_while_all _ _ E).
  - now apply rstrip_snoc.
Qed.

Lemma strip_nil : strip [] = [].
Proof. reflexivity. Qed.

Lemma strip_line_feed : strip [LF] = [].
Proof. reflexivity. Qed.

(** The comprehension filters before it strips; the result is the same
    as stripping first. *)
Lemma stripped_names_filter (lines : list pystr) :
  stripped_names lines = filter kept (map strip lines).
Proof.
  unfold stripped_names.
  induction lines as [|line lines IH]; simpl; [reflexivity|].
  assert (negb (Nat.eqb (List.length (strip line)) 0)
          && negb (startswith (strip line) [HASH]) = kept (strip line)) as ->.
  { unfold kept, is_blank, is_comment.
    destruct (strip line) as [|c r]; simpl; [reflexivity|].
    destruct r; simpl; now rewrite andb_true_r. }
  destruct (kept (strip line)); simpl; now rewrite IH.
Qed.

(** Reading line by line through the text layer and splitting the text at
    its terminators keep the same entries. *)
Lemma iter_lines_text_lines (s cur : pystr) :
  filter kept (map strip (iter_lines cur (universal_newlines s)))
  = filter kept (map strip (text_lines_from cur s)).
Proof.
  revert cur. induction s as [|c r IH]; intros cur.
  - destruct cur; reflexivity.
  - cbn [universal_newlines text_lines_from].
    destruct (c =? CR) eqn:Ecr.
    + apply N.eqb_eq in Ecr. subst c.
      change (CR =? LF) with false. cbv iota.
      cbn [iter_lines]. change (LF =? LF) with true. cbv iota.
      cbn [map filter]. change (rev (LF :: cur)) with (rev cur ++ [LF]).
      rewrite (strip_snoc _ _ line_feed_is_space).
      assert (filter kept (map strip (iter_lines []
                match r with
                | [] => []
                | d :: r' => if d =? LF then universal_newlines r'
                             else universal_newlines r
                end))
              = filter kept (map strip
                  match r with
                  | [] => [[]]
                  | d :: r' => if d =? LF then text_lines_from [] r'
                               else text_lines_from [] r
                  end)) as Hrest.
      { destruct r as [|d r']; [reflexivity|].
        destruct (d =? LF) eqn:Elf; [|apply IH].
        apply N.eqb_eq in Elf. subst d. exact (IH []). }
      destruct (kept (strip (rev cur))); [f_equal|]; exact Hrest.
    + cbn [iter_lines]. destruct (c =? LF) eqn:Elf.
      * cbn [map filter]. change (rev (c :: cur)) with (rev cur ++ [c]).
        apply N.eqb_eq in Elf. subst c.
        rewrite (strip_snoc _ _ line_feed_is_space).
        destruct (kept (strip (rev cur))); [f_equal|]; apply IH.
      * apply IH.
Qed.

Lemma loaded_entries (content : pystr) :
  stripped_names (file_lines content) = trimmed_entries content.
Proof.
  rewrite stripped_names_filter. apply iter_lines_text_lines.
Qed.

End Loader.

Section LoaderResults.
Context {U : UnicodeData} {K : Clock}.

Lemma drop_while_head (p : char -> bool) (s : pystr) (c : char) (r : pystr) :
  drop_while p s = c :: r -> p c = false.
Proof.
  induction s as [|d s IH]; simpl; [discriminate|].
  destruct (p d) eqn:E; [exact IH|].
  intros H. injection H as -> _. exact E.
Qed.

Lemma drop_while_suffix (p : char -> bool) (s : pystr) :
  exists dropped, s = dropped ++ drop_while p s.
Proof.
  induction s as [|d s [dropped IH]]; simpl; [now exists []|].
  destruct (p d); [|now exists []].
  exists (d :: dropped). simpl. now f_equal.
Qed.

(** [rstrip] cuts a string at its end only. *)
Lemma rstrip_prefix (s : pystr) : exists cut, s = rstrip s ++ cut.
Proof.
  unfold rstrip.
  destruct (drop_while_suffix char_isspace (rev s)) as [dropped H].
  exists (rev dropped).
  rewrite <- rev_app_distr, <- H. symmetry. apply rev_involutive.
Qed.

(** A stripped line neither starts nor ends with white space. *)
Lemma strip_ends (line : pystr) :
  (forall c r, strip line = c :: r -> char_isspace c = false)
  /\ (forall r c, strip line = r ++ [c] -> char_isspace c = false).
Proof.
  split.
  - intros c r H. unfold strip in H.
    destruct (rstrip_prefix (lstrip line)) as [cut Hcut].
    rewrite H in Hcut. simpl in Hcut.
    now apply (drop_while_head char_isspace line c (r ++ cut)).
  - intros r c H. unfold strip, rstrip in H.
    apply (f_equal (@rev char)) in H.
    rewrite rev_involutive, rev_app_distr in H. simpl in H.
    now apply (drop_while_head _ _ _ _ H).
Qed.

Lemma trimmed_entry_shape (content entry : pystr) :
  In entry (trimmed_entries content) ->
  (exists line, In line (text_lines content) /\ entry = strip line)
  /\ entry <> []
  /\ is_comment entry = false
  /\ (forall c r, entry = c :: r -> char_isspace c = false)
  /\ (forall r c, entry = r ++ [c] -> char_isspace c = false).
Proof.
  unfold trimmed_entries. rewrite filter_In, in_map_iff.
  intros [(line & <- & Hline) Hkept].
  unfold kept in Hkept. apply andb_true_iff in Hkept.
  destruct Hkept as [Hblank Hcomment].
  split; [now exists line|].
  split; [intros E; rewrite E in Hblank; discriminate|].
  split; [now destruct (is_comment (strip line))|].
  apply strip_ends.
Qed.

(** Once the client is built, [main] goes on with the wordlist. *)
Lemma main_with_client (w : world) (args : arguments) :
  projects_client w = None ->
  main w args []
  = (project_names <- read_project_names w (wordlist args) ;;
     match project_names with
     | [] => print MsgNoNames ;; sys_exit 0
     | _ =>
         print (MsgChecking (List.length project_names)) ;;
         r <- check_names w ProjectsClient (delay args)
                (List.length project_names) 1 project_names [] [] ;;
         print_summary (List.length project_names) (fst r) (snd r)
     end)%io
    [Print MsgBanner; Print MsgAuthReminder; Print MsgBlank].
Proof.
  intros Hclient. unfold main.
  rewrite !bind_print. simpl app.
  unfold try_except, new_client. rewrite Hclient. reflexivity.
Qed.

Lemma read_project_names_reads (w : world) (filename content : pystr)
    (tr : trace) :
  open_text w filename = inr content ->
  read_project_names w filename tr
  = (Return (trimmed_entries content),
     tr ++ [Print (MsgLoaded (List.length (trimmed_entries content)) filename)]).
Proof.
  intros Hopen. unfold read_project_names, try_except, open_utf8.
  rewrite Hopen, bind_ret, loaded_entries. reflexivity.
Qed.

Lemma read_project_names_exits (w : world) (filename : pystr) (e : exception)
    (tr : trace) :
  open_text w filename = inl e ->
  read_project_names w filename tr
  = (Raise (SystemExit 1), tr ++ [Print (load_diagnostic filename e)]).
Proof.
  intros Hopen. unfold read_project_names, try_except, open_utf8.
  rewrite Hopen. unfold bind, raise, load_diagnostic.
  destruct (exc_kind e); reflexivity.
Qed.

(** When the wordlist cannot be read the run ends with the diagnostic. *)
Lemma run_without_wordlist (w : world) (args : arguments) (e : exception) :
  projects_client w = None ->
  open_text w (wordlist args) = inl e ->
  run w args = (banner ++ [Print (load_diagnostic (wordlist args) e)], 1%Z).
Proof.
  intros Hclient Hopen. unfold run.
  rewrite (main_with_client _ _ Hclient).
  io_step (read_project_names_exits _ _ _ _ Hopen).
  reflexivity.
Qed.

(** C5: the loader returns the lines of the file in order, each stripped
    of surrounding white space, without the lines that are empty once
    trimmed and without the lines whose trimmed form starts with [#]; the
    file [foo], empty line, [# comment], [bar] yields [foo] and [bar]. *)
Theorem read_project_names_entries (w : world) (filename content : pystr)
    (tr : trace) :
  open_text w filename = inr content ->
  read_project_names w filename tr
  = (Return (trimmed_entries content),
     tr ++ [Print (MsgLoaded (List.length (trimmed_entries content)) filename)])
  /\ Forall (fun entry =>
               entry <> [] /\ is_comment entry = false
               /\ (forall c r, entry = c :: r -> char_isspace c = false)
               /\ (forall r c, entry = r ++ [c] -> char_isspace c = false))
            (trimmed_entries content)
  /\ stripped_names (file_lines commented_wordlist) = [py "foo"; py "bar"].
Proof.
  intros Hopen. split; [|split].
  - now apply read_project_names_reads.
  - apply Forall_forall. intros entry Hentry.
    now apply trimmed_entry_shape in Hentry.
  - reflexivity.
Qed.

(** C8: when the wordlist file does not exist the loader prints a
    diagnostic that names the file and ends the process with status 1;
    any other failure to read the file prints a diagnostic and ends the
    process with status 1 as well. *)
Theorem read_project_names_failure (w : world) (args : arguments)
    (e : exception) (tr : trace) :
  open_text w (wordlist args) = inl e ->
  exists diagnostic,
    read_project_names w (wordlist args) tr
    = (Raise (SystemExit 1), tr ++ [Print diagnostic])
    /\ exit_status (fst (read_project_names w (wordlist args) tr)) <> 0%Z
    /\ (exc_kind e = FileNotFoundError ->
        diagnostic = MsgFileNotFound (wordlist args))
    /\ (exc_kind e <> FileNotFoundError -> diagnostic = MsgReadError e)
    /\ (projects_client w = None ->
        run w args = (banner ++ [Print diagnostic], 1%Z)).
Proof.
  intros Hopen. exists (load_diagnostic (wordlist args) e).
  rewrite (read_project_names_exits _ _ _ _ Hopen).
  split; [reflexivity|]. split; [discriminate|]. split; [|split].
  - intros Hkind. unfold load_diagnostic. now rewrite Hkind.
  - intros Hkind. unfold load_diagnostic.
    destruct (exc_kind e); [now elim Hkind | reflexivity..].
  - intros Hclient. now apply run_without_wordlist.
Qed.

End LoaderResults.

(** ** The existence checker *)

Section ExistenceChecker.
Context {U : UnicodeData} {K : Clock}.

Lemma project_exists_value (w : world) (c : client) (project_id : pystr)
    (tr : trace) :
  let name := py "projects/" ++ project_id in
  let answer := get_project w (lookup_count tr) name in
  project_exists w c project_id tr
  = (Return (is_found answer),
     tr ++ GetProject name :: unexpected_log project_id answer).
Proof.
  intros name answer.
  unfold project_exists, try_except, client_get_project, bind.
  fold name. fold answer.
  destruct answer as [e|]; simpl.
  - destruct (status_not_found_or_denied e); simpl.
    + reflexivity.
    + unfold print, emit, ret. now rewrite <- app_assoc.
  - reflexivity.
Qed.

Lemma status_not_found_or_denied_spec (e : exception) :
  status_not_found_or_denied e = true
  <-> exc_status e = Some 404%Z \/ exc_status e = Some 403%Z.
Proof.
  unfold status_not_found_or_denied.
  destruct (exc_status e) as [s|].
  - rewrite orb_true_iff, !Z.eqb_eq. split.
    + intros [->| ->]; [now left | now right].
    + intros [H|H]; injection H as ->; [now left | now right].
  - split; [discriminate | intros [H|H]; discriminate].
Qed.

(** C1: the existence checker returns true exactly when the lookup
    succeeds.  A failing lookup is never propagated: with a status of
    not found or permission denied the checker returns false, and with
    any other failure it logs the error and returns false too.  One
    request is made in every case. *)
Theorem project_exists_answer (w : world) (c : client) (project_id : pystr)
    (tr : trace) :
  let name := py "projects/" ++ project_id in
  let answer := get_project w (lookup_count tr) name in
  (exists found log,
     project_exists w c project_id tr
     = (Return found, tr ++ GetProject name :: log)
     /\ (found = true <-> answer = None)
     /\ lookups log = [])
  /\ (answer = None ->
      project_exists w c project_id tr = (Return true, tr ++ [GetProject name]))
  /\ (forall e, answer = Some e ->
      exc_status e = Some 404%Z \/ exc_status e = Some 403%Z ->
      project_exists w c project_id tr = (Return false, tr ++ [GetProject name]))
  /\ (forall e, answer = Some e ->
      exc_status e <> Some 404%Z -> exc_status e <> Some 403%Z ->
      project_exists w c project_id tr
      = (Return false,
         tr ++ [GetProject name; Print (MsgUnexpected project_id e)])).
Proof.
  intros name answer.
  rewrite project_exists_value. fold name. fold answer.
  split; [|split; [|split]].
  - exists (is_found answer), (unexpected_log project_id answer).
    split; [reflexivity|]. split.
    + destruct answer; simpl; split; congruence.
    + destruct answer as [e|]; simpl; [|reflexivity].
      now destruct (status_not_found_or_denied e).
  - intros ->. reflexivity.
  - intros e -> Hstatus. simpl.
    apply status_not_found_or_denied_spec in Hstatus. now rewrite Hstatus.
  - intros e -> H404 H403. simpl.
    destruct (status_not_found_or_denied e) eqn:E; [|reflexivity].
    apply status_not_found_or_denied_spec in E. tauto.
Qed.

End ExistenceChecker.

(** ** The batch loop *)

Section Batch.
Context {U : UnicodeData} {K : Clock}.

Lemma lookup_count_app (tr tr' : trace) :
  lookup_count (tr ++ tr') = (lookup_count tr + lookup_count tr')%nat.
Proof. unfold lookup_count. now rewrite filter_app, length_app. Qed.

Lemma lookups_app (tr tr' : trace) : lookups (tr ++ tr') = lookups tr ++ lookups tr'.
Proof.
  induction tr as [|e tr IH]; simpl; [reflexivity|].
  destruct e; simpl; now rewrite IH.
Qed.

Lemma unexpected_log_quiet (project_id : pystr) (answer : option exception) :
  lookups (unexpected_log project_id answer) = []
  /\ lookup_count (unexpected_log project_id answer) = 0%nat
  /\ filter is_item_line (unexpected_log project_id answer) = []
  /\ filter is_summary_count (unexpected_log project_id answer) = [].
Proof.
  destruct answer as [e|]; simpl; [|now repeat split].
  destruct (status_not_found_or_denied e); now repeat split.
Qed.

Lemma time_sleep_accepts (secs : Q) (tr : trace) :
  sleep_accepts secs = true -> time_sleep secs tr = (Return tt, tr ++ [Sleep secs]).
Proof.
  unfold sleep_accepts, time_sleep.
  destruct (sleep_refusal secs); [discriminate | reflexivity].
Qed.

Lemma time_sleep_refuses (secs : Q) (tr : trace) :
  sleep_accepts secs = false ->
  exists e, sleep_refusal secs = Some e /\ time_sleep secs tr = (Raise (Exc e), tr).
Proof.
  unfold sleep_accepts, time_sleep.
  destruct (sleep_refusal secs) as [e|]; [|discriminate].
  intros _. exists e. now split.
Qed.

Lemma sleep_accepts_none (secs : Q) :
  sleep_refusal secs = None -> sleep_accepts secs = true.
Proof. unfold sleep_accepts. now intros ->. Qed.

Lemma sleep_refused_some (secs : Q) :
  sleep_accepts secs = false -> exists e, sleep_refusal secs = Some e.
Proof.
  unfold sleep_accepts.
  destruct (sleep_refusal secs) as [e|]; [now exists e | discriminate].
Qed.

(** [time.sleep] accepts the lengths from 0 to the longest pause. *)
Lemma sleep_accepts_range (secs : Q) :
  sleep_accepts secs = true <-> (0 <= secs)%Q /\ (secs <= longest_sleep)%Q.
Proof.
  rewrite <- !Qle_bool_iff. unfold sleep_accepts, sleep_refusal.
  destruct (Qle_bool 0 secs);
    [destruct (Qle_bool secs longest_sleep) | destruct (Qle_bool _ secs)];
    intuition congruence.
Qed.

(** A length that [time.sleep] accepts is not negative, and a pause of
    at most a second is accepted by every clock. *)
Lemma sleep_accepts_nonnegative (secs : Q) :
  sleep_accepts secs = true -> Qle_bool 0 secs = true.
Proof.
  unfold sleep_accepts, sleep_refusal.
  destruct (Qle_bool 0 secs); [reflexivity|].
  destruct (Qle_bool _ secs); discriminate.
Qed.

Lemma negative_sleep_refused (secs : Q) :
  Qle_bool 0 secs = false -> sleep_accepts secs = false.
Proof.
  intros H. destruct (sleep_accepts secs) eqn:Ha; [|reflexivity].
  apply sleep_accepts_nonnegative in Ha. congruence.
Qed.

Lemma longest_sleep_second : (1 <= longest_sleep)%Q.
Proof.
  unfold longest_sleep, Qle, Qplus. cbn [Qnum Qden].
  pose proof (N2Z.is_nonneg clock_slack). lia.
Qed.

Lemma short_sleep_accepted (secs : Q) :
  (0 <= secs)%Q -> (secs <= 1)%Q -> sleep_accepts secs = true.
Proof.
  intros H0 H1. unfold sleep_accepts, sleep_refusal.
  assert (Qle_bool 0 secs = true) as -> by now apply Qle_bool_iff.
  assert (Qle_bool secs longest_sleep = true) as ->.
  { apply Qle_bool_iff. eapply Qle_trans; [exact H1 | apply longest_sleep_second]. }
  reflexivity.
Qed.

Lemma default_delay_accepted : sleep_accepts (delay default_arguments) = true.
Proof. apply short_sleep_accepted; now vm_compute. Qed.

Lemma classify_length (w : world) (names : list pystr) (k : nat) :
  List.length (classify w k names) = List.length names.
Proof.
  revert k. induction names as [|name names IH]; intros k; simpl; [reflexivity|].
  destruct (valid_name name); simpl; now rewrite IH.
Qed.

(** Every candidate carries exactly one classification. *)
Lemma classification_partition (names : list pystr) (cs : list classification) :
  List.length cs = List.length names ->
  (List.length (lowered_of Invalid names cs)
   + List.length (lowered_of Available names cs)
   + List.length (lowered_of Taken names cs))%nat = List.length names.
Proof.
  revert cs. induction names as [|name names IH]; intros [|d cs] Hlen;
    simpl in *; try discriminate; [reflexivity|].
  injection Hlen as Hlen. specialize (IH cs Hlen).
  destruct d; simpl; lia.
Qed.

Lemma lowered_of_invalid_count (w : world) (names : list pystr) (k : nat) :
  List.length (lowered_of Invalid names (classify w k names))
  = List.length (filter (fun name => negb (valid_name name)) names).
Proof.
  revert k. induction names as [|name names IH]; intros k; simpl; [reflexivity|].
  destruct (valid_name name); simpl.
  - destruct (get_project w k (resource_name name)); simpl; apply IH.
  - now rewrite IH.
Qed.

(** With a delay that [time.sleep] accepts the loop reaches its end: it
    asks once for every valid candidate, prints one line per candidate
    and files every valid candidate under its classification. *)
Lemma check_names_completes (w : world) (c : client) (secs : Q) (total : nat)
    (names : list pystr) :
  sleep_accepts secs = true ->
  forall (i : nat) (available taken : list pystr) (tr : trace),
    let cs := classify w (lookup_count tr) names in
    exists tr',
      check_names w c secs total i names available taken tr
      = (Return (available ++ lowered_of Available names cs,
                 taken ++ lowered_of Taken names cs), tr ++ tr')
      /\ lookups tr' = map resource_name (filter valid_name names)
      /\ filter is_item_line tr' = map Print (item_lines total i names cs)
      /\ filter is_summary_count tr' = [].
Proof.
  intros Hsecs.
  induction names as [|name rest IH]; intros i available taken tr cs.
  - exists []. simpl. unfold ret. now rewrite !app_nil_r.
  - subst cs. cbn [check_names classify].
    io_step (meets_naming_rules_value name tr).
    destruct (valid_name name) eqn:Hvalid; cbn [negb].
    + io_step (project_exists_value w c (lower name) tr).
      rewrite bind_print.
      io_step (time_sleep_accepts secs _ Hsecs).
      fold (resource_name name).
      set (answer := get_project w (lookup_count tr) (resource_name name)).
      set (log := unexpected_log (lower name) answer).
      destruct (unexpected_log_quiet (lower name) answer)
        as (Hlookups & Hcount & Hitems & Hcounts).
      fold log in Hlookups, Hcount, Hitems, Hcounts.
      set (tr1 := ((tr ++ GetProject (resource_name name) :: log)
                   ++ [Print (MsgStatus i total (lower name) (is_found answer))])
                  ++ [Sleep secs]).
      assert (lookup_count tr1 = S (lookup_count tr)) as Hk.
      { unfold tr1. rewrite !lookup_count_app.
        change (GetProject (resource_name name) :: log)
          with ([GetProject (resource_name name)] ++ log).
        rewrite lookup_count_app, Hcount. unfold lookup_count. simpl. lia. }
      destruct (IH (S i)
                  (if negb (is_found answer) then available ++ [lower name]
                   else available)
                  (if negb (is_found answer) then taken
                   else taken ++ [lower name]) tr1)
        as (tr' & Hrun & Hlook & Hlines & Hnone).
      rewrite Hk in Hrun, Hlines.
      exists (GetProject (resource_name name) :: log
              ++ [Print (MsgStatus i total (lower name) (is_found answer));
                  Sleep secs] ++ tr').
      split; [|split; [|split]].
      * rewrite Hrun. unfold tr1. f_equal.
        -- destruct answer; simpl; now rewrite <- ?app_assoc.
        -- rewrite <- !app_assoc. reflexivity.
      * simpl. rewrite lookups_app, Hlookups, Hvalid. simpl. now rewrite Hlook.
      * simpl. rewrite filter_app, Hitems. simpl. rewrite Hlines.
        now destruct answer.
      * simpl. rewrite filter_app, Hcounts. simpl. exact Hnone.
    + rewrite bind_print.
      destruct (IH (S i) available taken
                  (tr ++ [Print (MsgInvalid i total name)]))
        as (tr' & Hrun & Hlook & Hlines & Hnone).
      assert (lookup_count (tr ++ [Print (MsgInvalid i total name)])
              = lookup_count tr) as Hk.
      { rewrite lookup_count_app. unfold lookup_count. simpl. lia. }
      rewrite Hk in Hrun, Hlines.
      exists (Print (MsgInvalid i total name) :: tr').
      split; [|split; [|split]].
      * rewrite Hrun. now rewrite <- app_assoc.
      * simpl. rewrite Hvalid. exact Hlook.
      * simpl. now rewrite Hlines.
      * exact Hnone.
Qed.

Lemma print_each_lines (items : list pystr) (tr : trace) :
  print_each items tr = (Return tt, tr ++ map Print (map MsgAvailableItem items)).
Proof.
  revert tr. induction items as [|a items IH]; intros tr; simpl.
  - unfold ret. now rewrite app_nil_r.
  - rewrite bind_print, IH. now rewrite <- app_assoc.
Qed.

Lemma print_summary_lines (total : nat) (available taken : list pystr)
    (tr : trace) :
  print_summary total available taken tr
  = (Return tt, tr ++ map Print (summary_lines total available taken)).
Proof.
  unfold print_summary, summary_lines.
  rewrite !bind_print.
  destruct available as [|a available].
  - rewrite bind_ret. unfold print, emit.
    rewrite <- !app_assoc. reflexivity.
  - rewrite bind_assoc, bind_print.
    io_step (print_each_lines _ _).
    unfold ret. rewrite <- !app_assoc. reflexivity.
Qed.

End Batch.

(** ** Whole runs *)

Section Runs.
Context {U : UnicodeData} {K : Clock}.

Lemma lookups_prints (ms : list message) : lookups (map Print ms) = [].
Proof. induction ms as [|m ms IH]; simpl; [reflexivity | exact IH]. Qed.

Lemma summary_has_no_item_line (total : nat) (available taken : list pystr) :
  filter is_item_line (map Print (summary_lines total available taken)) = [].
Proof.
  unfold summary_lines. simpl.
  destruct available as [|a available]; simpl; [reflexivity|].
  induction available as [|b l IH]; simpl; [reflexivity | exact IH].
Qed.

(** When the client cannot be built the run ends at once. *)
Lemma run_without_client (w : world) (args : arguments) (e : exception) :
  projects_client w = Some e ->
  run w args
  = (banner ++ [Print (MsgClientFailed e); Print MsgRunLogin], 1%Z).
Proof.
  intros Hclient. unfold run, main.
  rewrite !bind_print. simpl app.
  unfold try_except, new_client, bind at 1. rewrite Hclient. reflexivity.
Qed.

(** An empty wordlist: one message, no line per item, status 0. *)
Lemma run_of_empty_wordlist (w : world) (args : arguments) (content : pystr) :
  projects_client w = None ->
  open_text w (wordlist args) = inr content ->
  trimmed_entries content = [] ->
  run w args
  = (banner ++ [Print (MsgLoaded 0 (wordlist args)); Print MsgNoNames], 0%Z).
Proof.
  intros Hclient Hopen Hnone. unfold run.
  rewrite (main_with_client _ _ Hclient).
  io_step (read_project_names_reads _ _ _ _ Hopen).
  rewrite Hnone. reflexivity.
Qed.

(** A run with candidates and a delay that [time.sleep] accepts. *)
Lemma run_completes (w : world) (args : arguments) (content : pystr) :
  projects_client w = None ->
  open_text w (wordlist args) = inr content ->
  trimmed_entries content <> [] ->
  sleep_accepts (delay args) = true ->
  let names := trimmed_entries content in
  let cs := classify w 0 names in
  exists loop,
    run w args
    = (banner
       ++ [Print (MsgLoaded (List.length names) (wordlist args));
           Print (MsgChecking (List.length names))]
       ++ loop
       ++ map Print (summary_lines (List.length names)
                       (lowered_of Available names cs)
                       (lowered_of Taken names cs)),
       0%Z)
    /\ lookups loop = map resource_name (filter valid_name names)
    /\ filter is_item_line loop
       = map Print (item_lines (List.length names) 1 names cs)
    /\ filter is_summary_count loop = [].
Proof.
  intros Hclient Hopen Hsome Hdelay. cbv zeta.
  assert (Hread := read_project_names_reads w _ _ banner Hopen).
  remember (trimmed_entries content) as names eqn:Hnames.
  destruct (check_names_completes w ProjectsClient (delay args)
              (List.length names) names Hdelay 1%nat [] []
              ((banner ++ [Print (MsgLoaded (List.length names) (wordlist args))])
               ++ [Print (MsgChecking (List.length names))]))
    as (loop & Hloop & Hlookups & Hlines & Hnone).
  exists loop. split; [|repeat split; assumption].
  unfold run. rewrite (main_with_client _ _ Hclient).
  io_step Hread.
  destruct names as [|name rest]; [contradiction|].
  rewrite bind_print, (bind_returns _ _ _ _ _ Hloop).
  rewrite print_summary_lines. simpl fst. simpl snd.
  reflexivity.
Qed.

Lemma valid_candidate_found (names : list pystr) :
  filter valid_name names <> [] ->
  exists skipped name rest,
    names = skipped ++ name :: rest
    /\ valid_name name = true
    /\ filter valid_name skipped = [].
Proof.
  induction names as [|name names IH]; simpl; [intros H; now elim H|].
  destruct (valid_name name) eqn:E.
  - intros _. exists [], name, names. now repeat split.
  - intros H. destruct (IH H) as (skipped & n & rest & -> & Hn & Hskipped).
    exists (name :: skipped), n, rest. simpl. rewrite E. now repeat split.
Qed.

(** A delay that [time.sleep] refuses stops the loop after the first
    valid candidate: the error is not caught. *)
Lemma check_names_aborts (w : world) (c : client) (secs : Q) (total : nat)
    (names : list pystr) :
  sleep_accepts secs = false ->
  filter valid_name names <> [] ->
  forall (i : nat) (available taken : list pystr) (tr : trace),
  exists e tr',
    check_names w c secs total i names available taken tr
    = (Raise (Exc e), tr ++ tr')
    /\ sleep_refusal secs = Some e
    /\ lookups tr' = firstn 1 (map resource_name (filter valid_name names)).
Proof.
  intros Hsecs.
  induction names as [|name rest IH]; intros Hvalid i available taken tr;
    [now elim Hvalid|].
  cbn [check_names].
  io_step (meets_naming_rules_value name tr).
  simpl in Hvalid. simpl filter.
  destruct (valid_name name) eqn:E; cbn [negb].
  - io_step (project_exists_value w c (lower name) tr).
    rewrite bind_print.
    fold (resource_name name).
    set (answer := get_project w (lookup_count tr) (resource_name name)).
    set (log := unexpected_log (lower name) answer).
    destruct (unexpected_log_quiet (lower name) answer) as (Hquiet & _).
    fold log in Hquiet.
    destruct (time_sleep_refuses secs
                ((tr ++ GetProject (resource_name name) :: log)
                 ++ [Print (MsgStatus i total (lower name) (is_found answer))])
                Hsecs) as (e & Hkind & Hsleep).
    io_step Hsleep.
    exists e, (GetProject (resource_name name) :: log
               ++ [Print (MsgStatus i total (lower name) (is_found answer))]).
    split; [|split; [exact Hkind|]].
    + rewrite <- app_assoc. reflexivity.
    + simpl. rewrite lookups_app, Hquiet. reflexivity.
  - rewrite bind_print.
    destruct (IH Hvalid (S i) available taken
                (tr ++ [Print (MsgInvalid i total name)]))
      as (e & tr' & Hrun & Hkind & Hlook).
    exists e, (Print (MsgInvalid i total name) :: tr').
    split; [|split; [exact Hkind | exact Hlook]].
    rewrite Hrun. now rewrite <- app_assoc.
Qed.

(** The run that a refused delay cuts short: the client was built and
    the wordlist was read, yet the process ends with status 1 after one
    request, before any summary. *)
Lemma run_aborts (w : world) (args : arguments) (content : pystr) :
  projects_client w = None ->
  open_text w (wordlist args) = inr content ->
  filter valid_name (trimmed_entries content) <> [] ->
  sleep_accepts (delay args) = false ->
  snd (run w args) = 1%Z
  /\ lookups (fst (run w args))
     = firstn 1 (map resource_name (filter valid_name (trimmed_entries content))).
Proof.
  intros Hclient Hopen Hvalid Hdelay.
  assert (Hread := read_project_names_reads w _ _ banner Hopen).
  remember (trimmed_entries content) as names eqn:Hnames.
  destruct (check_names_aborts w ProjectsClient (delay args)
              (List.length names) names Hdelay Hvalid 1%nat [] []
              ((banner ++ [Print (MsgLoaded (List.length names) (wordlist args))])
               ++ [Print (MsgChecking (List.length names))]))
    as (e & tr' & Hloop & _ & Hlook).
  unfold run. rewrite (main_with_client _ _ Hclient).
  io_step Hread.
  destruct names as [|name rest]; [now elim Hvalid|].
  rewrite bind_print, (bind_raises _ _ _ _ _ Hloop).
  split; [reflexivity|].
  simpl fst. simpl snd. cbn [lookups]. exact Hlook.
Qed.

End Runs.

(** ** The claims about whole runs *)

Section RunClaims.
Context {U : UnicodeData} {K : Clock}.

Lemma summary_counts (total : nat) (available taken : list pystr) :
  filter is_summary_count (map Print (summary_lines total available taken))
  = [Print (MsgTotal total); Print (MsgAvailable (List.length available));
     Print (MsgTaken (List.length taken))].
Proof.
  unfold summary_lines. simpl. do 3 f_equal.
  destruct available as [|a available]; simpl; [reflexivity|].
  induction available as [|b l IH]; simpl; [reflexivity | exact IH].
Qed.

(** Requests of a run that is not cut short: one per valid candidate, in
    file order, with the lower-cased candidate, and none for a candidate
    that fails the rule, which is tested on the raw form. *)
Lemma lookups_of_run (w : world) (args : arguments) (content : pystr) :
  projects_client w = None ->
  open_text w (wordlist args) = inr content ->
  sleep_accepts (delay args) = true ->
  snd (run w args) = 0%Z
  /\ lookups (fst (run w args))
     = map (fun name => py "projects/" ++ lower name)
           (filter valid_name (trimmed_entries content)).
Proof.
  intros Hclient Hopen Hdelay.
  destruct (trimmed_entries content) as [|name rest] eqn:Hnames.
  - rewrite (run_of_empty_wordlist w args content Hclient Hopen Hnames).
    split; reflexivity.
  - assert (trimmed_entries content <> []) as Hsome
        by (rewrite Hnames; discriminate).
    destruct (run_completes w args content Hclient Hopen Hsome Hdelay)
      as (loop & Hrun & Hlookups & _).
    rewrite Hrun, <- Hnames. split; [reflexivity|].
    cbn [fst]. unfold banner.
    rewrite !lookups_app, lookups_prints, Hlookups, app_nil_r. reflexivity.
Qed.

(** The classification of a run that is not cut short: every candidate
    has one line and one classification, the two accumulators hold the
    available and the taken ones, and the three printed counts are the
    number of candidates and the lengths of the accumulators. *)
Lemma classification_of_run (w : world) (args : arguments) (content : pystr) :
  projects_client w = None ->
  open_text w (wordlist args) = inr content ->
  trimmed_entries content <> [] ->
  sleep_accepts (delay args) = true ->
  let names := trimmed_entries content in
  let cs := classify w 0 names in
  let available := lowered_of Available names cs in
  let taken := lowered_of Taken names cs in
  List.length cs = List.length names
  /\ filter is_item_line (fst (run w args))
     = map Print (item_lines (List.length names) 1 names cs)
  /\ filter is_summary_count (fst (run w args))
     = [Print (MsgTotal (List.length names));
        Print (MsgAvailable (List.length available));
        Print (MsgTaken (List.length taken))]
  /\ (List.length (filter (fun name => negb (valid_name name)) names)
      + List.length available + List.length taken)%nat = List.length names.
Proof.
  intros Hclient Hopen Hsome Hdelay names cs available taken.
  destruct (run_completes w args content Hclient Hopen Hsome Hdelay)
    as (loop & Hrun & _ & Hlines & Hnone).
  fold names in Hrun, Hlines. fold cs in Hrun, Hlines.
  fold available in Hrun. fold taken in Hrun.
  assert (List.length cs = List.length names) as Hlen by apply classify_length.
  split; [exact Hlen|]. split; [|split].
  - rewrite Hrun. cbn [fst]. unfold banner.
    rewrite !filter_app, Hlines, summary_has_no_item_line, app_nil_r.
    reflexivity.
  - rewrite Hrun. cbn [fst]. unfold banner.
    rewrite !filter_app, Hnone, summary_counts. reflexivity.
  - rewrite <- (classification_partition names cs Hlen).
    unfold cs. now rewrite lowered_of_invalid_count.
Qed.

(** The status of a run that is not cut short: 0, unless the client
    could not be built or the wordlist could not be read. *)
Lemma exit_status_of_run (w : world) (args : arguments) :
  sleep_accepts (delay args) = true ->
  snd (run w args) = 0%Z
  \/ (snd (run w args) = 1%Z
      /\ (projects_client w <> None
          \/ exists e, open_text w (wordlist args) = inl e)).
Proof.
  intros Hdelay.
  destruct (projects_client w) as [e|] eqn:Hclient.
  - right. rewrite (run_without_client w args e Hclient).
    split; [reflexivity | left; discriminate].
  - destruct (open_text w (wordlist args)) as [e|content] eqn:Hopen.
    + right. rewrite (run_without_wordlist w args e Hclient Hopen).
      split; [reflexivity | right; now exists e].
    + left. now apply (lookups_of_run w args content).
Qed.

(** C3, on a run that [--delay -1] cuts short: the wordlist holds two
    valid candidates, so two requests are due, but the process makes the
    first one only; the sleep after it raises and nothing catches it. *)
Theorem negative_delay_skips_lookups :
  map (fun name => py "projects/" ++ lower name)
      (filter valid_name (trimmed_entries two_valid_names))
  = [py "projects/valid-name-1"; py "projects/anothername"]
  /\ lookups (fst (run (world_with two_valid_names) negative_delay))
     = [py "projects/valid-name-1"].
Proof. split; reflexivity. Qed.

(** C4, on the same run: the second candidate is valid and gets no line
    and no classification, and none of the three counts is printed. *)
Theorem negative_delay_leaves_unclassified :
  filter valid_name (trimmed_entries two_valid_names)
  = [py "valid-name-1"; py "anothername"]
  /\ filter is_item_line (fst (run (world_with two_valid_names) negative_delay))
     = [Print (MsgStatus 1 2 (py "valid-name-1") true)]
  /\ filter is_summary_count
       (fst (run (world_with two_valid_names) negative_delay)) = [].
Proof. repeat split; reflexivity. Qed.

(** C7, on the same run: the client is built and the wordlist is read,
    and the process still ends with status 1. *)
Theorem negative_delay_exit_status :
  projects_client (world_with two_valid_names) = None
  /\ open_text (world_with two_valid_names) (wordlist negative_delay)
     = inr two_valid_names
  /\ run (world_with two_valid_names) negative_delay
     = (banner
        ++ [Print (MsgLoaded 2 DEFAULT_WORDLIST); Print (MsgChecking 2);
            GetProject (py "projects/valid-name-1");
            Print (MsgStatus 1 2 (py "valid-name-1") true)],
        1%Z).
Proof. repeat split; reflexivity. Qed.

(** C6: for the wordlist [ab], [valid-name-1], [ANOTHERNAME] and a
    backend on which [valid-name-1] exists and [anothername] does not,
    the run classifies [ab] as invalid (it is too short), [valid-name-1]
    as taken and [anothername] as available, and the summary reports a
    total of 3, 1 available and 1 taken. *)
Theorem end_to_end_sample (w : world) (path content : pystr) :
  projects_client w = None ->
  open_text w path = inr content ->
  trimmed_entries content = [py "ab"; py "valid-name-1"; py "ANOTHERNAME"] ->
  (forall k, get_project w k (py "projects/valid-name-1") = None) ->
  (forall k, get_project w k (py "projects/anothername") <> None) ->
  exists tr,
    run w {| wordlist := path; delay := delay default_arguments |} = (tr, 0%Z)
    /\ (List.length (py "ab") < 6)%nat
    /\ filter is_item_line tr
       = [Print (MsgInvalid 1 3 (py "ab"));
          Print (MsgStatus 2 3 (py "valid-name-1") true);
          Print (MsgStatus 3 3 (py "anothername") false)]
    /\ filter is_summary_count tr
       = [Print (MsgTotal 3); Print (MsgAvailable 1); Print (MsgTaken 1)]
    /\ In (Print (MsgAvailableItem (py "anothername"))) tr
    /\ lookups tr = [py "projects/valid-name-1"; py "projects/anothername"].
Proof.
  intros Hclient Hopen Hnames Hexists Hmissing.
  set (args := {| wordlist := path; delay := delay default_arguments |}).
  assert (trimmed_entries content <> []) as Hsome
      by (rewrite Hnames; discriminate).
  destruct (run_completes w args content Hclient Hopen Hsome
              default_delay_accepted)
    as (loop & Hrun & Hlookups & Hlines & Hnone).
  rewrite Hnames in Hrun, Hlookups, Hlines.
  assert (classify w 0 [py "ab"; py "valid-name-1"; py "ANOTHERNAME"]
          = [Invalid; Taken; Available]) as Hcs.
  { cbn [classify].
    change (valid_name (py "ab")) with false.
    change (valid_name (py "valid-name-1")) with true.
    change (valid_name (py "ANOTHERNAME")) with true.
    change (resource_name (py "valid-name-1")) with (py "projects/valid-name-1").
    change (resource_name (py "ANOTHERNAME")) with (py "projects/anothername").
    cbv iota. rewrite Hexists.
    destruct (get_project w 1 (py "projects/anothername")) eqn:E;
      [reflexivity | now elim (Hmissing 1%nat)]. }
  rewrite Hcs in Hrun, Hlines.
  eexists. split; [exact Hrun|].
  split; [simpl; lia|]. split; [|split; [|split]].
  - unfold banner. rewrite !filter_app, Hlines, summary_has_no_item_line.
    reflexivity.
  - unfold banner. rewrite !filter_app, Hnone, summary_counts. reflexivity.
  - apply in_or_app. right. apply in_or_app. right. apply in_or_app. right.
    apply in_map. unfold summary_lines. apply in_or_app. right.
    right. left. reflexivity.
  - unfold banner. rewrite !lookups_app, lookups_prints, Hlookups, app_nil_r.
    reflexivity.
Qed.

End RunClaims.

(** ** The properties at work *)

Example digits_first_is_invalid : valid_name (U:=latin1) (py "123456") = false.
Proof. reflexivity. Qed.

Example hyphen_first_is_invalid : valid_name (U:=latin1) (py "-my-app") = false.
Proof. reflexivity. Qed.

Example hyphens_only_is_invalid : valid_name (U:=latin1) (py "------") = false.
Proof. reflexivity. Qed.

Example letters_above_ascii :
  valid_name (U:=latin1) (accented_name ++ py "d") = true
  /\ valid_name (U:=latin1) ([0xE0] ++ py "b-c-d") = true
  /\ valid_name (U:=latin1) ([0xD7] ++ py "b-c-d") = false.
Proof. repeat split; reflexivity. Qed.

Example final_sigma_lowered :
  lower (U:=latin1) accented_name = [0xE0; 98; FINAL_SIGMA; HYPHEN; 99]
  /\ lower (U:=latin1) [CAPITAL_SIGMA; CAPITAL_SIGMA]
     = [SMALL_SIGMA; FINAL_SIGMA].
Proof. split; reflexivity. Qed.

Example lower_of_two_code_points :
  lower (U:=latin1) ([0x130] ++ py "STANBUL") = [0x69; 0x307] ++ py "stanbul".
Proof. reflexivity. Qed.

Example carriage_returns_end_lines :
  trimmed_entries (U:=latin1) (py "one" ++ [CR; LF] ++ py " two " ++ [CR] ++ py "#3")
  = [py "one"; py "two"].
Proof. reflexivity. Qed.

Lemma naming_rule_exact_witness :
  meets_naming_rules (U:=latin1) (py "my-app-1") [] = (Return true, []).
Proof.
  destruct (naming_rule_exact (U:=latin1) (py "my-app-1") []) as (_ & _ & H).
  apply H.
  - unfold letters_digits_hyphens.
    repeat (constructor;
            [first [left; reflexivity | right; left; reflexivity
                   | right; right; reflexivity]|]).
    constructor.
  - vm_compute. split; lia.
  - do 2 eexists. split; reflexivity.
Defined.

Lemma naming_rule_total_witness :
  meets_naming_rules (U:=latin1) (py "ab") [] = (Return false, []).
Proof.
  destruct (naming_rule_total (U:=latin1) (py "ab") []) as (_ & H & _).
  apply H. vm_compute. lia.
Defined.

Lemma read_project_names_entries_witness :
  read_project_names (U:=latin1) (world_with commented_wordlist) DEFAULT_WORDLIST []
  = (Return [py "foo"; py "bar"], [Print (MsgLoaded 2 DEFAULT_WORDLIST)]).
Proof.
  destruct (read_project_names_entries (U:=latin1) (world_with commented_wordlist)
              DEFAULT_WORDLIST commented_wordlist [] eq_refl) as (H & _).
  exact H.
Defined.

Lemma read_project_names_failure_witness :
  run (U:=latin1) (K:=sample_clock) world_without_file default_arguments
  = (banner ++ [Print (MsgFileNotFound DEFAULT_WORDLIST)], 1%Z).
Proof.
  destruct (read_project_names_failure (U:=latin1) (K:=sample_clock)
              world_without_file default_arguments no_such_file [] eq_refl)
    as (diagnostic & _ & _ & Hnamed & _ & Hrun).
  rewrite (Hrun eq_refl), (Hnamed eq_refl). reflexivity.
Defined.

Lemma project_exists_answer_witness :
  project_exists world_out_of_quota ProjectsClient (py "anothername") []
  = (Return false,
     [GetProject (py "projects/anothername");
      Print (MsgUnexpected (py "anothername") rate_limited)]).
Proof.
  destruct (project_exists_answer world_out_of_quota ProjectsClient
              (py "anothername") []) as (_ & _ & _ & H).
  apply (H rate_limited); [reflexivity | discriminate | discriminate].
Defined.

Lemma end_to_end_sample_witness :
  exists tr,
    run (U:=latin1) (K:=sample_clock) (world_with sample_wordlist)
        default_arguments = (tr, 0%Z)
    /\ (List.length (py "ab") < 6)%nat
    /\ filter is_item_line tr
       = [Print (MsgInvalid 1 3 (py "ab"));
          Print (MsgStatus 2 3 (py "valid-name-1") true);
          Print (MsgStatus 3 3 (py "anothername") false)]
    /\ filter is_summary_count tr
       = [Print (MsgTotal 3); Print (MsgAvailable 1); Print (MsgTaken 1)]
    /\ In (Print (MsgAvailableItem (py "anothername"))) tr
    /\ lookups tr = [py "projects/valid-name-1"; py "projects/anothername"].
Proof.
  apply (end_to_end_sample (U:=latin1) (K:=sample_clock)
           (world_with sample_wordlist) DEFAULT_WORDLIST sample_wordlist).
  - reflexivity.
  - reflexivity.
  - reflexivity.
  - intros k. reflexivity.
  - intros k. discriminate.
Defined.

(** * Further properties of the batch *)

Section LoopSteps.
Context {U : UnicodeData} {K : Clock}.

(** One turn of the loop on a candidate that fails the rule. *)
Lemma check_names_skips (w : world) (c : client) (secs : Q) (total i : nat)
    (name : pystr) (rest available taken : list pystr) (tr : trace) :
  valid_name name = false ->
  check_names w c secs total i (name :: rest) available taken tr
  = check_names w c secs total (S i) rest available taken
      (tr ++ [Print (MsgInvalid i total name)]).
Proof.
  intros Hvalid. cbn [check_names].
  io_step (meets_naming_rules_value name tr).
  rewrite Hvalid. cbn [negb]. now rewrite bind_print.
Qed.

(** One turn on a valid candidate, with a delay that is accepted. *)
Lemma check_names_checks (w : world) (c : client) (secs : Q) (total i : nat)
    (name : pystr) (rest available taken : list pystr) (tr : trace) :
  valid_name name = true ->
  sleep_accepts secs = true ->
  let answer := get_project w (lookup_count tr) (resource_name name) in
  check_names w c secs total i (name :: rest) available taken tr
  = check_names w c secs total (S i) rest
      (if is_found answer then available else available ++ [lower name])
      (if is_found answer then taken ++ [lower name] else taken)
      (tr ++ GetProject (resource_name name)
          :: unexpected_log (lower name) answer
          ++ [Print (MsgStatus i total (lower name) (is_found answer));
              Sleep secs]).
Proof.
  intros Hvalid Hsecs answer. cbn [check_names].
  io_step (meets_naming_rules_value name tr).
  rewrite Hvalid. cbn [negb].
  io_step (project_exists_value w c (lower name) tr).
  rewrite bind_print.
  io_step (time_sleep_accepts secs _ Hsecs).
  fold (resource_name name). fold answer.
  destruct (is_found answer); cbn [negb];
    rewrite <- !app_assoc; reflexivity.
Qed.

(** One turn on a valid candidate, with a delay that is refused: the
    loop is left by the error of [time.sleep]. *)
Lemma check_names_breaks (w : world) (c : client) (secs : Q) (total i : nat)
    (name : pystr) (rest available taken : list pystr) (tr : trace)
    (e : exception) :
  valid_name name = true ->
  sleep_refusal secs = Some e ->
  let answer := get_project w (lookup_count tr) (resource_name name) in
  check_names w c secs total i (name :: rest) available taken tr
  = (Raise (Exc e),
     tr ++ GetProject (resource_name name)
        :: unexpected_log (lower name) answer
        ++ [Print (MsgStatus i total (lower name) (is_found answer))]).
Proof.
  intros Hvalid Hsecs answer. cbn [check_names].
  io_step (meets_naming_rules_value name tr).
  rewrite Hvalid. cbn [negb].
  io_step (project_exists_value w c (lower name) tr).
  rewrite bind_print.
  fold (resource_name name). fold answer.
  unfold time_sleep. rewrite Hsecs.
  unfold bind, raise. rewrite <- !app_assoc. reflexivity.
Qed.

Lemma unexpected_log_loop_events (project_id : pystr) (answer : option exception) :
  Forall (fun e => is_loop_event e = true) (unexpected_log project_id answer).
Proof.
  destruct answer as [e|]; simpl; [|constructor].
  destruct (status_not_found_or_denied e); repeat constructor.
Qed.

(** Whatever the delay, the loop only asks, pauses and prints the lines
    of the items and of the log. *)
Lemma check_names_events (w : world) (c : client) (secs : Q) (total : nat)
    (names : list pystr) :
  forall (i : nat) (available taken : list pystr) (tr : trace),
  exists tr',
    snd (check_names w c secs total i names available taken tr) = tr ++ tr'
    /\ Forall (fun e => is_loop_event e = true) tr'.
Proof.
  induction names as [|name rest IH]; intros i available taken tr.
  - exists []. split; [simpl; now rewrite app_nil_r | constructor].
  - destruct (valid_name name) eqn:Hvalid.
    + destruct (sleep_refusal secs) as [e|] eqn:Hsecs.
      * rewrite (check_names_breaks w c secs total i name rest available
                   taken tr e Hvalid Hsecs).
        eexists. split; [reflexivity|].
        constructor; [reflexivity|].
        apply Forall_app. split; [apply unexpected_log_loop_events|].
        repeat constructor.
      * apply sleep_accepts_none in Hsecs.
        rewrite (check_names_checks _ _ _ _ _ _ _ _ _ _ Hvalid Hsecs).
        match goal with
        | |- context [check_names _ _ _ _ _ _ ?a ?t (tr ++ ?x)] =>
            destruct (IH (S i) a t (tr ++ x)) as (tr' & Htr & Hall);
            exists (x ++ tr')
        end.
        split; [rewrite Htr; now rewrite <- app_assoc|].
        apply Forall_app. split; [|exact Hall].
        constructor; [reflexivity|].
        apply Forall_app. split; [apply unexpected_log_loop_events|].
        repeat constructor.
    + rewrite (check_names_skips _ _ _ _ _ _ _ _ _ _ Hvalid).
      destruct (IH (S i) available taken
                  (tr ++ [Print (MsgInvalid i total name)]))
        as (tr' & Htr & Hall).
      exists (Print (MsgInvalid i total name) :: tr').
      split; [rewrite Htr; now rewrite <- app_assoc|].
      constructor; [reflexivity | exact Hall].
Qed.

Lemma filter_none {A} (p q : A -> bool) (l : list A) :
  (forall x, q x = true -> p x = false) ->
  Forall (fun x => q x = true) l -> filter p l = [].
Proof.
  intros Hpq. induction 1 as [|x l Hx _ IH]; simpl; [reflexivity|].
  now rewrite (Hpq x Hx).
Qed.

(** What a run with candidates comes to, in terms of its loop. *)
Lemma run_with_names (w : world) (args : arguments) (content : pystr) :
  projects_client w = None ->
  open_text w (wordlist args) = inr content ->
  trimmed_entries content <> [] ->
  let names := trimmed_entries content in
  let start :=
    banner ++ [Print (MsgLoaded (List.length names) (wordlist args));
               Print (MsgChecking (List.length names))] in
  let r := check_names w ProjectsClient (delay args) (List.length names) 1
             names [] [] start in
  run w args
  = match fst r with
    | Return (available, taken) =>
        (snd r ++ map Print (summary_lines (List.length names) available taken),
         0%Z)
    | Raise x => (snd r, exit_status (@Raise unit x))
    end.
Proof.
  intros Hclient Hopen Hsome. cbv zeta.
  assert (Hread := read_project_names_reads w _ _ banner Hopen).
  remember (trimmed_entries content) as names eqn:Hnames.
  assert (main w args []
          = (r <- check_names w ProjectsClient (delay args) (List.length names)
                    1 names [] [] ;;
             print_summary (List.length names) (fst r) (snd r))%io
              (banner ++ [Print (MsgLoaded (List.length names) (wordlist args));
                          Print (MsgChecking (List.length names))])) as Hmain.
  { rewrite (main_with_client _ _ Hclient).
    io_step Hread.
    destruct names as [|name rest]; [contradiction|].
    rewrite bind_print. now rewrite <- app_assoc. }
  unfold run. rewrite Hmain. unfold bind.
  destruct (check_names w ProjectsClient (delay args) (List.length names) 1
              names [] [] _) as [[[available taken]|x] tr'].
  - rewrite print_summary_lines. reflexivity.
  - reflexivity.
Qed.

End LoopSteps.

Section BatchProperties.
Context {U : UnicodeData} {K : Clock}.

(** A failure to build the client ends the run before anything else:
    the failure and the advice to log in are printed, the status is 1,
    and neither the wordlist nor the resource manager is touched, so the
    rest of the world makes no difference. *)
Theorem client_failure_ends_run (w : world) (args : arguments) (e : exception) :
  projects_client w = Some e ->
  run w args = (banner ++ [Print (MsgClientFailed e); Print MsgRunLogin], 1%Z)
  /\ forall w' : world, projects_client w' = Some e -> run w' args = run w args.
Proof.
  intros Hclient. rewrite (run_without_client w args e Hclient).
  split; [reflexivity|].
  intros w' Hclient'. apply (run_without_client w' args e Hclient').
Qed.

(** With a delay that [time.sleep] accepts, the status of the process
    is 0 exactly when the client was built and the wordlist was read,
    and 1 otherwise. *)
Theorem exit_status_exact (w : world) (args : arguments) :
  sleep_accepts (delay args) = true ->
  (snd (run w args) = 0%Z
   <-> projects_client w = None
       /\ exists content, open_text w (wordlist args) = inr content)
  /\ (snd (run w args) = 0%Z \/ snd (run w args) = 1%Z).
Proof.
  intros Hdelay.
  destruct (projects_client w) as [e|] eqn:Hclient.
  - rewrite (run_without_client w args e Hclient). simpl. split.
    + split; [discriminate | intros [H _]; discriminate].
    + now right.
  - destruct (open_text w (wordlist args)) as [e|content] eqn:Hopen.
    + rewrite (run_without_wordlist w args e Hclient Hopen). simpl. split.
      * split; [discriminate | intros [_ [content H]]; discriminate].
      * now right.
    + destruct (lookups_of_run w args content Hclient Hopen Hdelay) as [-> _].
      split; [|now left].
      split; [intros _; split; [reflexivity | now exists content] | reflexivity].
Qed.

Lemma check_names_all_invalid (w : world) (c : client) (secs : Q) (total : nat)
    (names : list pystr) :
  filter valid_name names = [] ->
  forall (i : nat) (available taken : list pystr) (tr : trace),
    check_names w c secs total i names available taken tr
    = (Return (available, taken),
       tr ++ map Print (item_lines total i names (map (fun _ => Invalid) names))).
Proof.
  induction names as [|name rest IH]; intros Hnone i available taken tr.
  - simpl. unfold ret. now rewrite app_nil_r.
  - simpl in Hnone. destruct (valid_name name) eqn:Hvalid; [discriminate|].
    rewrite (check_names_skips _ _ _ _ _ _ _ _ _ _ Hvalid), (IH Hnone).
    simpl. now rewrite <- app_assoc.
Qed.

Lemma item_lines_are_prints (total i : nat) (names : list pystr)
    (cs : list classification) (p : event -> bool) :
  (forall e, is_item_line e = true -> p e = false) ->
  filter p (map Print (item_lines total i names cs)) = [].
Proof.
  intros Hp. revert i cs.
  induction names as [|name rest IH]; intros i [|d cs]; simpl; try reflexivity.
  rewrite IH. now destruct d; rewrite Hp.
Qed.

(** The delay only matters when a candidate is valid: a run whose
    candidates all fail the naming rule makes no request and never
    pauses, so it ends with status 0 and an empty result even with a
    delay that [time.sleep] would refuse. *)
Theorem no_valid_candidate_needs_no_delay (w : world) (args : arguments)
    (content : pystr) :
  projects_client w = None ->
  open_text w (wordlist args) = inr content ->
  trimmed_entries content <> [] ->
  filter valid_name (trimmed_entries content) = [] ->
  snd (run w args) = 0%Z
  /\ filter is_request_or_sleep (fst (run w args)) = []
  /\ filter is_summary_count (fst (run w args))
     = [Print (MsgTotal (List.length (trimmed_entries content)));
        Print (MsgAvailable 0); Print (MsgTaken 0)]
  /\ filter is_available_line (fst (run w args)) = [Print MsgNoneAvailable].
Proof.
  intros Hclient Hopen Hsome Hnone.
  rewrite (run_with_names w args content Hclient Hopen Hsome).
  rewrite (check_names_all_invalid _ _ _ _ _ Hnone). cbn [fst snd].
  unfold banner, summary_lines.
  split; [reflexivity|].
  rewrite <- !app_assoc. rewrite !filter_app.
  rewrite !item_lines_are_prints by (intros [[]| |]; simpl; congruence).
  repeat split; reflexivity.
Qed.

(** What is left of a run that the delay cuts short. *)
Lemma run_cut_short (w : world) (args : arguments) (content : pystr) :
  projects_client w = None ->
  open_text w (wordlist args) = inr content ->
  filter valid_name (trimmed_entries content) <> [] ->
  sleep_accepts (delay args) = false ->
  snd (run w args) = 1%Z
  /\ lookups (fst (run w args))
     = firstn 1 (map (fun name => py "projects/" ++ lower name)
                     (filter valid_name (trimmed_entries content)))
  /\ filter is_summary_count (fst (run w args)) = []
  /\ filter is_available_line (fst (run w args)) = [].
Proof.
  intros Hclient Hopen Hvalid Hdelay.
  destruct (run_aborts w args content Hclient Hopen Hvalid Hdelay)
    as [Hstatus Hlookups].
  split; [exact Hstatus|]. split; [exact Hlookups|].
  assert (trimmed_entries content <> []) as Hsome.
  { intros E. rewrite E in Hvalid. now elim Hvalid. }
  rewrite (run_with_names w args content Hclient Hopen Hsome) in *.
  set (start := banner ++ _) in *.
  destruct (check_names_events w ProjectsClient (delay args)
              (List.length (trimmed_entries content)) (trimmed_entries content)
              1%nat [] [] start) as (tr' & Htr & Hall).
  destruct (check_names w ProjectsClient (delay args) _ 1 _ [] [] start)
    as [[[available taken]|x] tr1]; cbn [fst snd] in *.
  - discriminate Hstatus.
  - subst tr1. unfold start, banner. rewrite !filter_app.
    rewrite (filter_none is_summary_count is_loop_event tr')
      by (try exact Hall; intros [[]| |]; simpl; congruence).
    rewrite (filter_none is_available_line is_loop_event tr')
      by (try exact Hall; intros [[]| |]; simpl; congruence).
    split; reflexivity.
Qed.

(** A delay that [time.sleep] refuses ends the run at the first valid
    candidate: one request is made, for that candidate, the status is 1
    and no count of the summary is printed. *)
Theorem refused_delay_aborts (w : world) (args : arguments) (content : pystr) :
  projects_client w = None ->
  open_text w (wordlist args) = inr content ->
  filter valid_name (trimmed_entries content) <> [] ->
  Qle_bool 0 (delay args) = false ->
  snd (run w args) = 1%Z
  /\ lookups (fst (run w args))
     = firstn 1 (map (fun name => py "projects/" ++ lower name)
                     (filter valid_name (trimmed_entries content)))
  /\ filter is_summary_count (fst (run w args)) = []
  /\ filter is_available_line (fst (run w args)) = [].
Proof.
  intros Hclient Hopen Hvalid Hdelay.
  apply run_cut_short; try assumption.
  now apply negative_sleep_refused.
Qed.

(** Which delays work.  With the client built, the wordlist read and a
    valid candidate in it, the process ends with status 0 exactly when
    the delay lies between 0 and the longest pause of the runtime; a
    delay above it cuts the run short as a negative one does, after one
    request and before the summary. *)
Theorem delay_range_decides_status (w : world) (args : arguments)
    (content : pystr) :
  projects_client w = None ->
  open_text w (wordlist args) = inr content ->
  filter valid_name (trimmed_entries content) <> [] ->
  (snd (run w args) = 0%Z
   <-> (0 <= delay args)%Q /\ (delay args <= longest_sleep)%Q)
  /\ (~ (delay args <= longest_sleep)%Q ->
      snd (run w args) = 1%Z
      /\ List.length (lookups (fst (run w args))) = 1%nat
      /\ filter is_summary_count (fst (run w args)) = []).
Proof.
  intros Hclient Hopen Hvalid.
  rewrite <- sleep_accepts_range.
  destruct (sleep_accepts (delay args)) eqn:Hdelay.
  - destruct (lookups_of_run w args content Hclient Hopen Hdelay)
      as [Hstatus _].
    split; [now split|].
    intros Hlong. apply sleep_accepts_range in Hdelay. now elim Hlong.
  - destruct (run_cut_short w args content Hclient Hopen Hvalid Hdelay)
      as (Hstatus & Hlookups & Hcounts & _).
    split; [rewrite Hstatus; split; discriminate|].
    intros _. split; [exact Hstatus|]. split; [|exact Hcounts].
    rewrite Hlookups.
    destruct (filter valid_name (trimmed_entries content));
      [now elim Hvalid | reflexivity].
Qed.

End BatchProperties.

Section Pacing.
Context {U : UnicodeData} {K : Clock}.

Lemma unexpected_log_silent (project_id : pystr) (answer : option exception) :
  filter is_request_or_sleep (unexpected_log project_id answer) = []
  /\ without_log (unexpected_log project_id answer) = []
  /\ filter is_available_line (unexpected_log project_id answer) = [].
Proof.
  unfold without_log.
  destruct answer as [e|]; simpl; [|now repeat split].
  destruct (status_not_found_or_denied e); now repeat split.
Qed.

Lemma check_names_pacing (w : world) (c : client) (secs : Q) (total : nat)
    (names : list pystr) :
  sleep_accepts secs = true ->
  forall (i : nat) (available taken : list pystr) (tr : trace),
    filter is_request_or_sleep
      (snd (check_names w c secs total i names available taken tr))
    = filter is_request_or_sleep tr
      ++ flat_map (fun name => [GetProject (resource_name name); Sleep secs])
           (filter valid_name names).
Proof.
  intros Hsecs.
  induction names as [|name rest IH]; intros i available taken tr.
  - simpl. now rewrite app_nil_r.
  - destruct (valid_name name) eqn:Hvalid.
    + rewrite (check_names_checks _ _ _ _ _ _ _ _ _ _ Hvalid Hsecs), IH.
      cbn [filter]. rewrite Hvalid.
      rewrite filter_app. cbn [filter is_request_or_sleep].
      rewrite filter_app.
      destruct (unexpected_log_silent (lower name)
                  (get_project w (lookup_count tr) (resource_name name)))
        as (-> & _ & _).
      simpl. now rewrite <- app_assoc.
    + rewrite (check_names_skips _ _ _ _ _ _ _ _ _ _ Hvalid), IH.
      cbn [filter]. rewrite Hvalid.
      rewrite filter_app. simpl. now rewrite app_nil_r.
Qed.

(** Requests and pauses alternate.  In a run with a delay that
    [time.sleep] accepts, every request is for a valid candidate in
    lower case, in file order, and is followed by a pause of the
    configured length before anything else is asked, the last request
    included. *)
Theorem requests_and_sleeps_alternate (w : world) (args : arguments)
    (content : pystr) :
  projects_client w = None ->
  open_text w (wordlist args) = inr content ->
  sleep_accepts (delay args) = true ->
  filter is_request_or_sleep (fst (run w args))
  = flat_map (fun name => [GetProject (py "projects/" ++ lower name);
                           Sleep (delay args)])
             (filter valid_name (trimmed_entries content)).
Proof.
  intros Hclient Hopen Hdelay.
  destruct (trimmed_entries content) as [|name rest] eqn:Hnames.
  - rewrite (run_of_empty_wordlist w args content Hclient Hopen Hnames).
    reflexivity.
  - assert (trimmed_entries content <> []) as Hsome
        by (rewrite Hnames; discriminate).
    rewrite (run_with_names w args content Hclient Hopen Hsome).
    rewrite <- Hnames.
    set (start := banner ++ _).
    assert (Hpace := check_names_pacing w ProjectsClient (delay args)
                       (List.length (trimmed_entries content))
                       (trimmed_entries content) Hdelay 1%nat [] [] start).
    destruct (check_names_completes w ProjectsClient (delay args)
                (List.length (trimmed_entries content))
                (trimmed_entries content) Hdelay 1%nat [] [] start)
      as (loop & Hrun & _).
    rewrite Hrun in *. cbn [fst snd] in *.
    rewrite filter_app, Hpace.
    assert (filter is_request_or_sleep
              (map Print (summary_lines (List.length (trimmed_entries content))
                            ([] ++ lowered_of Available (trimmed_entries content)
                                     (classify w (lookup_count start)
                                        (trimmed_entries content)))
                            ([] ++ lowered_of Taken (trimmed_entries content)
                                     (classify w (lookup_count start)
                                        (trimmed_entries content))))) = []) as ->.
    { generalize (summary_lines (List.length (trimmed_entries content))
                    ([] ++ lowered_of Available (trimmed_entries content)
                             (classify w (lookup_count start)
                                (trimmed_entries content)))
                    ([] ++ lowered_of Taken (trimmed_entries content)
                             (classify w (lookup_count start)
                                (trimmed_entries content)))).
      intros ms. induction ms as [|m ms IH]; simpl; [reflexivity | exact IH]. }
    rewrite app_nil_r. reflexivity.
Qed.

Lemma available_lines_of_summary (total : nat) (available taken : list pystr) :
  filter is_available_line (map Print (summary_lines total available taken))
  = map Print (available_lines available).
Proof.
  unfold summary_lines, available_lines. simpl.
  destruct available as [|a available]; simpl; [reflexivity|].
  do 2 f_equal. induction available as [|b l IH]; simpl; [reflexivity|].
  now rewrite IH.
Qed.

End Pacing.

Section Summary.
Context {U : UnicodeData} {K : Clock}.

(** A run that is not cut short, with the loop's part of the trace. *)
Lemma run_completes_events (w : world) (args : arguments) (content : pystr) :
  projects_client w = None ->
  open_text w (wordlist args) = inr content ->
  trimmed_entries content <> [] ->
  sleep_accepts (delay args) = true ->
  let names := trimmed_entries content in
  let cs := classify w 0 names in
  exists loop,
    fst (run w args)
    = (banner ++ [Print (MsgLoaded (List.length names) (wordlist args));
                  Print (MsgChecking (List.length names))])
      ++ loop
      ++ map Print (summary_lines (List.length names)
                      (lowered_of Available names cs)
                      (lowered_of Taken names cs))
    /\ Forall (fun e => is_loop_event e = true) loop.
Proof.
  intros Hclient Hopen Hsome Hdelay names cs.
  rewrite (run_with_names w args content Hclient Hopen Hsome).
  fold names. set (start := banner ++ _).
  destruct (check_names_completes w ProjectsClient (delay args)
              (List.length names) names Hdelay 1%nat [] [] start)
    as (loop & Hrun & _).
  destruct (check_names_events w ProjectsClient (delay args)
              (List.length names) names 1%nat [] [] start)
    as (tr' & Htr & Hall).
  rewrite Hrun in *. cbn [fst snd] in *.
  apply app_inv_head in Htr. subst tr'.
  exists loop. split; [|exact Hall].
  rewrite <- app_assoc. reflexivity.
Qed.

(** The end of the summary.  A run with a delay that [time.sleep]
    accepts lists the available identifiers in lower case and in file
    order under one header, or says that there are none: never both,
    never neither. *)
Theorem summary_lists_available (w : world) (args : arguments) (content : pystr) :
  projects_client w = None ->
  open_text w (wordlist args) = inr content ->
  trimmed_entries content <> [] ->
  sleep_accepts (delay args) = true ->
  let names := trimmed_entries content in
  let available := lowered_of Available names (classify w 0 names) in
  filter is_available_line (fst (run w args))
  = map Print (match available with
               | [] => [MsgNoneAvailable]
               | _ => MsgAvailableHeader :: map MsgAvailableItem available
               end).
Proof.
  intros Hclient Hopen Hsome Hdelay names available.
  destruct (run_completes_events w args content Hclient Hopen Hsome Hdelay)
    as (loop & -> & Hall).
  fold names. fold available. unfold banner.
  rewrite !filter_app.
  rewrite (filter_none is_available_line is_loop_event loop)
    by (try exact Hall; intros [[]| |]; simpl; congruence).
  rewrite available_lines_of_summary. reflexivity.
Qed.

Lemma classify_failing_backend (w : world) (names : list pystr) :
  (forall k name, get_project w k name <> None) ->
  forall k,
    lowered_of Taken names (classify w k names) = []
    /\ lowered_of Available names (classify w k names)
       = map lower (filter valid_name names).
Proof.
  intros Hfail. induction names as [|name rest IH]; intros k; simpl.
  - now split.
  - destruct (valid_name name).
    + destruct (get_project w k (resource_name name)) eqn:E;
        [|now elim (Hfail k (resource_name name))].
      destruct (IH (S k)) as [-> ->]. now split.
    + destruct (IH k) as [-> ->]. now split.
Qed.

(** A resource manager that cannot be reached makes everything look
    free: when every request fails, with whatever error, every valid
    candidate is counted and listed as available and none as taken. *)
Theorem failing_backend_all_available (w : world) (args : arguments)
    (content : pystr) :
  projects_client w = None ->
  open_text w (wordlist args) = inr content ->
  trimmed_entries content <> [] ->
  sleep_accepts (delay args) = true ->
  (forall k name, get_project w k name <> None) ->
  let names := trimmed_entries content in
  snd (run w args) = 0%Z
  /\ filter is_summary_count (fst (run w args))
     = [Print (MsgTotal (List.length names));
        Print (MsgAvailable (List.length (filter valid_name names)));
        Print (MsgTaken 0)]
  /\ filter is_available_line (fst (run w args))
     = map Print (available_lines (map lower (filter valid_name names))).
Proof.
  intros Hclient Hopen Hsome Hdelay Hfail names.
  destruct (run_completes w args content Hclient Hopen Hsome Hdelay)
    as (loop & Hrun & _ & _ & Hnone).
  destruct (run_completes_events w args content Hclient Hopen Hsome Hdelay)
    as (loop' & Htrace & Hall).
  fold names in Hrun, Htrace.
  destruct (classify_failing_backend w names Hfail 0%nat) as [Htaken Havailable].
  rewrite Htaken, Havailable in Hrun, Htrace.
  split; [now rewrite Hrun|]. split.
  - rewrite Hrun. cbn [fst]. unfold banner.
    rewrite !filter_app, Hnone, summary_counts, length_map. reflexivity.
  - rewrite Htrace. unfold banner. rewrite !filter_app.
    rewrite (filter_none is_available_line is_loop_event loop')
      by (try exact Hall; intros [[]| |]; simpl; congruence).
    rewrite available_lines_of_summary. reflexivity.
Qed.

End Summary.

Section FailureKinds.
Context {U : UnicodeData} {K : Clock}.

Lemma without_log_app (tr tr' : trace) :
  without_log (tr ++ tr') = without_log tr ++ without_log tr'.
Proof. apply filter_app. Qed.

Lemma lookup_count_without_log (tr : trace) :
  lookup_count (without_log tr) = lookup_count tr.
Proof.
  unfold lookup_count, without_log.
  induction tr as [|e tr IH]; simpl; [reflexivity|].
  destruct e as [[]| |]; simpl; now rewrite IH.
Qed.

Lemma same_log_free_count (tr1 tr2 : trace) :
  without_log tr1 = without_log tr2 -> lookup_count tr1 = lookup_count tr2.
Proof.
  intros H. rewrite <- (lookup_count_without_log tr1), H.
  apply lookup_count_without_log.
Qed.

(** On worlds that find the same projects the loop returns the same
    accumulators, or raises the same error, and differs in the log lines
    of the existence checker only. *)
Lemma check_names_same_findings (w1 w2 : world) (c : client) (secs : Q)
    (total : nat) (names : list pystr) :
  (forall k name,
     is_found (get_project w1 k name) = is_found (get_project w2 k name)) ->
  forall (i : nat) (available taken : list pystr) (tr1 tr2 : trace),
    without_log tr1 = without_log tr2 ->
    fst (check_names w1 c secs total i names available taken tr1)
    = fst (check_names w2 c secs total i names available taken tr2)
    /\ without_log (snd (check_names w1 c secs total i names available taken tr1))
       = without_log (snd (check_names w2 c secs total i names available taken tr2)).
Proof.
  intros Hsame.
  induction names as [|name rest IH]; intros i available taken tr1 tr2 Htr.
  - simpl. now split.
  - assert (Hcount := same_log_free_count tr1 tr2 Htr).
    destruct (valid_name name) eqn:Hvalid.
    + assert (is_found (get_project w1 (lookup_count tr1) (resource_name name))
              = is_found (get_project w2 (lookup_count tr2) (resource_name name)))
        as Hfound by (rewrite Hcount; apply Hsame).
      destruct (sleep_accepts secs) eqn:Hsecs.
      * rewrite !(check_names_checks _ _ _ _ _ _ _ _ _ _ Hvalid Hsecs).
        rewrite Hfound. apply IH.
        rewrite !without_log_app, Htr. f_equal.
        change (GetProject (resource_name name) :: ?l)
          with ([GetProject (resource_name name)] ++ l).
        rewrite !without_log_app.
        destruct (unexpected_log_silent (lower name)
                    (get_project w1 (lookup_count tr1) (resource_name name)))
          as (_ & -> & _).
        destruct (unexpected_log_silent (lower name)
                    (get_project w2 (lookup_count tr2) (resource_name name)))
          as (_ & -> & _).
        reflexivity.
      * destruct (sleep_refused_some secs Hsecs) as [e He].
        rewrite !(check_names_breaks _ _ _ _ _ _ _ _ _ _ _ Hvalid He).
        cbn [fst snd]. split; [reflexivity|].
        rewrite Hfound, !without_log_app, Htr. f_equal.
        change (GetProject (resource_name name) :: ?l)
          with ([GetProject (resource_name name)] ++ l).
        rewrite !without_log_app.
        destruct (unexpected_log_silent (lower name)
                    (get_project w1 (lookup_count tr1) (resource_name name)))
          as (_ & -> & _).
        destruct (unexpected_log_silent (lower name)
                    (get_project w2 (lookup_count tr2) (resource_name name)))
          as (_ & -> & _).
        reflexivity.
    + rewrite !(check_names_skips _ _ _ _ _ _ _ _ _ _ Hvalid).
      apply IH. now rewrite !without_log_app, Htr.
Qed.

(** The kind of failure of a request cannot be told from the result.
    Two worlds that find the same projects, one answering "not found"
    where the other is out of quota or loses the connection, give runs
    with the same status and the same output, the log lines of the
    existence checker apart: a failed check is reported as available. *)
Theorem failure_kind_is_invisible (w1 w2 : world) (args : arguments) :
  same_findings w1 w2 ->
  without_log (fst (run w1 args)) = without_log (fst (run w2 args))
  /\ snd (run w1 args) = snd (run w2 args).
Proof.
  intros (Hclient & Hopen & Hfound).
  destruct (projects_client w1) as [e|] eqn:Hc1.
  - rewrite (run_without_client w1 args e Hc1).
    rewrite (run_without_client w2 args e (eq_sym Hclient)).
    now split.
  - assert (Hc2 := eq_sym Hclient).
    destruct (open_text w1 (wordlist args)) as [e|content] eqn:Ho1.
    + rewrite (run_without_wordlist w1 args e Hc1 Ho1).
      rewrite Hopen in Ho1. rewrite (run_without_wordlist w2 args e Hc2 Ho1).
      now split.
    + assert (Ho2 := Ho1). rewrite Hopen in Ho2.
      destruct (trimmed_entries content) as [|name rest] eqn:Hnames.
      * rewrite (run_of_empty_wordlist w1 args content Hc1 Ho1 Hnames).
        rewrite (run_of_empty_wordlist w2 args content Hc2 Ho2 Hnames).
        now split.
      * assert (trimmed_entries content <> []) as Hsome
            by (rewrite Hnames; discriminate).
        rewrite (run_with_names w1 args content Hc1 Ho1 Hsome).
        rewrite (run_with_names w2 args content Hc2 Ho2 Hsome).
        set (start := banner ++ _).
        destruct (check_names_same_findings w1 w2 ProjectsClient (delay args)
                    (List.length (trimmed_entries content))
                    (trimmed_entries content) Hfound 1%nat [] [] start start
                    eq_refl) as [Hfst Hsnd].
        destruct (check_names w1 ProjectsClient (delay args) _ 1 _ [] [] start)
          as [r1 tr1].
        destruct (check_names w2 ProjectsClient (delay args) _ 1 _ [] [] start)
          as [r2 tr2].
        cbn [fst snd] in *. subst r2.
        destruct r1 as [[available taken]|x]; cbn [fst snd].
        -- split; [|reflexivity]. now rewrite !without_log_app, Hsnd.
        -- split; [exact Hsnd | reflexivity].
Qed.

End FailureKinds.

(** * Further properties of the loader *)

Section LoaderProperties.
Context {U : UnicodeData} {K : Clock}.

Lemma text_lines_from_join (a b cur : pystr) :
  filter kept (map strip (text_lines_from cur (a ++ LF :: b)))
  = filter kept (map strip (text_lines_from cur a)) ++ trimmed_entries b.
Proof.
  revert cur. induction a as [|c r IH]; intros cur.
  - cbn [app text_lines_from]. change (LF =? LF) with true. cbv iota.
    cbn [map filter]. unfold trimmed_entries, text_lines.
    destruct (kept (strip (rev cur))); reflexivity.
  - cbn [app text_lines_from].
    destruct (c =? LF) eqn:Elf.
    + cbn [map filter]. rewrite (IH []).
      destruct (kept (strip (rev cur))); reflexivity.
    + destruct (c =? CR) eqn:Ecr; [|apply IH].
      cbn [map filter].
      assert (filter kept (map strip
                match r ++ LF :: b with
                | [] => [[]]
                | d :: r' => if d =? LF then text_lines_from [] r'
                             else text_lines_from [] (r ++ LF :: b)
                end)
              = filter kept (map strip
                  match r with
                  | [] => [[]]
                  | d :: r' => if d =? LF then text_lines_from [] r'
                               else text_lines_from [] r
                  end) ++ trimmed_entries b) as Hrest.
      { destruct r as [|d r'].
        - cbn [app]. change (LF =? LF) with true. cbv iota. reflexivity.
        - cbn [app]. destruct (d =? LF) eqn:Ed; [|apply (IH [])].
          apply N.eqb_eq in Ed. subst d. exact (IH []). }
      destruct (kept (strip (rev cur))); cbn [app]; [f_equal|]; exact Hrest.
Qed.

(** Wordlists concatenate: a file made of two texts with a line feed
    between them loads as the entries of the first followed by the
    entries of the second, whatever the two texts end or start with. *)
Theorem wordlists_concatenate (a b : pystr) :
  stripped_names (file_lines (a ++ [LF] ++ b))
  = stripped_names (file_lines a) ++ stripped_names (file_lines b).
Proof.
  rewrite !loaded_entries. unfold trimmed_entries at 1 2, text_lines.
  apply text_lines_from_join.
Qed.

Lemma text_lines_from_plain (s cur : pystr) :
  Forall (fun c => is_line_end c = false) s ->
  text_lines_from cur s = [rev cur ++ s].
Proof.
  intros H. revert cur.
  induction H as [|c s Hc _ IH]; intros cur; cbn [text_lines_from].
  - now rewrite app_nil_r.
  - unfold is_line_end in Hc. apply orb_false_iff in Hc.
    destruct Hc as [-> ->]. rewrite IH. simpl. now rewrite <- app_assoc.
Qed.

Lemma text_lines_from_no_ends (s cur line : pystr) :
  Forall (fun c => is_line_end c = false) cur ->
  In line (text_lines_from cur s) ->
  Forall (fun c => is_line_end c = false) line.
Proof.
  revert cur. induction s as [|c r IH]; intros cur Hcur; cbn [text_lines_from].
  - intros [<-|[]]. now apply Forall_rev.
  - assert (Forall (fun c => is_line_end c = false) (rev cur)) as Hrev
        by now apply Forall_rev.
    destruct (c =? LF) eqn:Elf.
    + intros [<-|Hin]; [exact Hrev|]. now apply (IH []).
    + destruct (c =? CR) eqn:Ecr.
      * intros [<-|Hin]; [exact Hrev|].
        destruct r as [|d r'].
        -- destruct Hin as [<-|[]]. constructor.
        -- destruct (d =? LF) eqn:Ed.
           ++ apply (IH [] (Forall_nil _)). cbn [text_lines_from].
              rewrite Ed. now right.
           ++ now apply (IH []).
      * apply IH. constructor; [|exact Hcur].
        unfold is_line_end. now rewrite Elf, Ecr.
Qed.

Lemma strip_keeps (P : char -> Prop) (line : pystr) :
  Forall P line -> Forall P (strip line).
Proof.
  intros H. unfold strip.
  destruct (rstrip_prefix (lstrip line)) as [cut Hcut].
  destruct (drop_while_suffix char_isspace line) as [dropped Hdropped].
  fold (lstrip line) in Hdropped.
  rewrite Hdropped in H. apply Forall_app in H. destruct H as [_ H].
  rewrite Hcut in H. apply Forall_app in H. now destruct H.
Qed.

(** A string that neither starts nor ends with white space is its own
    stripped form. *)
Lemma strip_clean (s : pystr) :
  (forall c r, s = c :: r -> char_isspace c = false) ->
  (forall r c, s = r ++ [c] -> char_isspace c = false) ->
  strip s = s.
Proof.
  intros Hfirst Hlast. unfold strip.
  assert (lstrip s = s) as ->.
  { unfold lstrip. destruct s as [|c r]; [reflexivity|].
    simpl. now rewrite (Hfirst c r eq_refl). }
  unfold rstrip. destruct (rev s) as [|c r] eqn:Hrev.
  - apply (f_equal (@rev char)) in Hrev. rewrite rev_involutive in Hrev.
    now subst s.
  - apply (f_equal (@rev char)) in Hrev. rewrite rev_involutive in Hrev.
    simpl in Hrev. simpl. rewrite (Hlast (rev r) c Hrev).
    simpl. now symmetry.
Qed.

Lemma entry_loads_alone (content entry : pystr) :
  In entry (trimmed_entries content) -> trimmed_entries entry = [entry].
Proof.
  intros Hentry.
  destruct (trimmed_entry_shape content entry Hentry)
    as ((line & Hline & ->) & Hsome & Hcomment & Hfirst & Hlast).
  assert (Forall (fun c => is_line_end c = false) (strip line)) as Hplain.
  { apply strip_keeps.
    apply (text_lines_from_no_ends content [] line (Forall_nil _) Hline). }
  unfold trimmed_entries, text_lines.
  rewrite (text_lines_from_plain _ [] Hplain). cbn [rev app map filter].
  rewrite (strip_clean _ Hfirst Hlast).
  unfold kept. rewrite Hcomment.
  destruct (strip line); [now elim Hsome | reflexivity].
Qed.

Lemma unlines_loads (content : pystr) (entries : list pystr) :
  (forall entry, In entry entries -> In entry (trimmed_entries content)) ->
  trimmed_entries (unlines entries) = entries.
Proof.
  induction entries as [|entry entries IH]; intros Hall.
  - reflexivity.
  - cbn [unlines flat_map]. rewrite <- app_assoc. cbn [app].
    unfold trimmed_entries at 1, text_lines.
    rewrite text_lines_from_join.
    change (filter kept (map strip (text_lines_from [] entry)))
      with (trimmed_entries entry).
    rewrite (entry_loads_alone content entry (Hall entry (or_introl eq_refl))).
    fold (unlines entries). rewrite IH; [reflexivity|].
    intros e He. apply Hall. now right.
Qed.

(** Loading is idempotent: the entries loaded from a file, written back
    one per line, load again as the same entries. *)
Theorem loaded_entries_load_again (content : pystr) :
  stripped_names (file_lines (unlines (stripped_names (file_lines content))))
  = stripped_names (file_lines content).
Proof.
  rewrite !loaded_entries.
  apply (unlines_loads content). trivial.
Qed.

End LoaderProperties.

(** * Lower case and the naming rule *)

Section LowerAndRule.
Context {U : UnicodeData} {K : Clock}.

Ltac split_bounds :=
  repeat (match goal with
          | |- context [N.leb ?a ?b] => destruct (N.leb_spec a b)
          | |- context [N.ltb ?a ?b] => destruct (N.ltb_spec a b)
          | |- context [N.eqb ?a ?b] => destruct (N.eqb_spec a b)
          end; cbn [andb orb negb]);
  try reflexivity; try lia.

Lemma ascii_tolower_facts (c : char) :
  c < 128 ->
  ascii_tolower c < 128
  /\ ascii_isupper (ascii_tolower c) = false
  /\ char_isalpha (ascii_tolower c) = char_isalpha c
  /\ char_isalnum (ascii_tolower c) = char_isalnum c
  /\ (ascii_tolower c =? HYPHEN) = (c =? HYPHEN).
Proof.
  intros Hc.
  unfold char_isalnum, char_isalpha, char_isnumeric, is_ascii, ascii_tolower,
    ascii_isupper, ascii_islower, ascii_isdigit, HYPHEN.
  destruct (N.leb_spec 65 c), (N.leb_spec c 90); cbn [andb];
    repeat split; split_bounds.
Qed.

Lemma lower_from_ascii (s before : pystr) :
  Forall (fun c => c < 128) s -> lower_from before s = map ascii_tolower s.
Proof.
  intros H. revert before.
  induction H as [|c s Hc _ IH]; intros before; simpl; [reflexivity|].
  rewrite (capital_sigma_not_ascii c Hc), IH.
  unfold char_tolower, is_ascii.
  destruct (N.ltb_spec c 128); [reflexivity | lia].
Qed.

Lemma replace_hyphen_lowered (s : pystr) :
  Forall (fun c => c < 128) s ->
  replace HYPHEN [] (map ascii_tolower s)
  = map ascii_tolower (replace HYPHEN [] s)
  /\ Forall (fun c => c < 128) (replace HYPHEN [] s).
Proof.
  unfold replace.
  induction 1 as [|c s Hc _ [IH1 IH2]]; simpl; [now split|].
  destruct (ascii_tolower_facts c Hc) as (_ & _ & _ & _ & ->).
  destruct (c =? HYPHEN); simpl; [now split|].
  rewrite IH1. split; [reflexivity | now constructor].
Qed.

Lemma isalnum_lowered (s : pystr) :
  Forall (fun c => c < 128) s -> isalnum (map ascii_tolower s) = isalnum s.
Proof.
  intros H. unfold isalnum.
  assert (forallb char_isalnum (map ascii_tolower s) = forallb char_isalnum s)
    as Hall.
  { induction H as [|c s Hc _ IH]; simpl; [reflexivity|].
    destruct (ascii_tolower_facts c Hc) as (_ & _ & _ & -> & _).
    now rewrite IH. }
  destruct s; [reflexivity | exact Hall].
Qed.

(** The naming rule does not look at the case of ASCII letters: a
    candidate of ASCII characters and its lower-case form, the one that
    is sent to the resource manager and listed in the summary, are both
    valid or both invalid; the lower-case form has the same length and
    no capital letter. *)
Theorem lower_case_keeps_validity (name : pystr) :
  Forall (fun c => c < 128) name ->
  valid_name (lower name) = valid_name name
  /\ List.length (lower name) = List.length name
  /\ Forall (fun c => ascii_isupper c = false) (lower name).
Proof.
  intros Hascii. unfold lower. rewrite (lower_from_ascii name [] Hascii).
  split; [|split].
  - unfold valid_name. rewrite length_map.
    destruct (replace_hyphen_lowered name Hascii) as [-> Hrest].
    rewrite (isalnum_lowered _ Hrest).
    destruct Hascii as [|c rest Hc _]; [reflexivity|]. simpl map.
    destruct (ascii_tolower_facts c Hc) as (_ & _ & -> & _). reflexivity.
  - apply length_map.
  - induction Hascii as [|c rest Hc _ IH]; simpl; constructor; [|exact IH].
    now destruct (ascii_tolower_facts c Hc) as (_ & -> & _).
Qed.

End LowerAndRule.

(** ** The further properties at work *)

Example sample_clock_pauses :
  sleep_refusal (K:=sample_clock) (2 # 10) = None
  /\ sleep_refusal (K:=sample_clock) (9223353796 # 1) = None
  /\ sleep_refusal (K:=sample_clock) (- (1)) = Some negative_sleep_error
  /\ sleep_refusal (K:=sample_clock) (9223372036 # 1) = Some invalid_argument
  /\ sleep_refusal (K:=sample_clock) (10000000000 # 1) = Some overflow_error
  /\ sleep_refusal (K:=sample_clock) (- (10000000000 # 1))
     = Some overflow_error.
Proof. repeat split; reflexivity. Qed.

Example too_long_delay_cuts_short :
  run (U:=latin1) (K:=sample_clock) (world_with two_valid_names) too_long_delay
  = (banner
     ++ [Print (MsgLoaded 2 DEFAULT_WORDLIST); Print (MsgChecking 2);
         GetProject (py "projects/valid-name-1");
         Print (MsgStatus 1 2 (py "valid-name-1") true)],
     1%Z).
Proof. reflexivity. Qed.

Lemma client_failure_ends_run_witness :
  run (U:=latin1) (K:=sample_clock) world_without_credentials
      default_arguments
  = (banner ++ [Print (MsgClientFailed connection_lost); Print MsgRunLogin], 1%Z).
Proof.
  exact (proj1 (client_failure_ends_run (U:=latin1) (K:=sample_clock)
                  world_without_credentials default_arguments connection_lost eq_refl)).
Defined.

Lemma exit_status_exact_witness :
  snd (run (U:=latin1) (K:=sample_clock) world_without_file default_arguments)
  = 1%Z.
Proof.
  destruct (exit_status_exact (U:=latin1) (K:=sample_clock)
              world_without_file default_arguments eq_refl) as [[Hzero _] [H|H]].
  - destruct (Hzero H) as [_ [content Hcontent]]. discriminate Hcontent.
  - exact H.
Defined.

Lemma refused_delay_aborts_witness :
  snd (run (U:=latin1) (K:=sample_clock) (world_with two_valid_names)
         negative_delay) = 1%Z
  /\ lookups (fst (run (U:=latin1) (K:=sample_clock)
                      (world_with two_valid_names) negative_delay))
     = [py "projects/valid-name-1"].
Proof.
  destruct (refused_delay_aborts (U:=latin1) (K:=sample_clock)
              (world_with two_valid_names) negative_delay two_valid_names eq_refl eq_refl)
    as (Hstatus & Hlookups & _).
  - vm_compute. discriminate.
  - reflexivity.
  - split; [exact Hstatus | exact Hlookups].
Defined.

Lemma no_valid_candidate_needs_no_delay_witness :
  snd (run (U:=latin1) (K:=sample_clock) (world_with short_names)
         negative_delay) = 0%Z.
Proof.
  destruct (no_valid_candidate_needs_no_delay (U:=latin1) (K:=sample_clock)
              (world_with short_names) negative_delay short_names eq_refl eq_refl) as (Hstatus & _).
  - vm_compute. discriminate.
  - reflexivity.
  - exact Hstatus.
Defined.

Lemma requests_and_sleeps_alternate_witness :
  filter is_request_or_sleep
    (fst (run (U:=latin1) (K:=sample_clock) (world_with sample_wordlist)
            default_arguments))
  = [GetProject (py "projects/valid-name-1"); Sleep (2 # 10);
     GetProject (py "projects/anothername"); Sleep (2 # 10)].
Proof.
  exact (requests_and_sleeps_alternate (U:=latin1) (K:=sample_clock)
           (world_with sample_wordlist) default_arguments sample_wordlist eq_refl eq_refl eq_refl).
Defined.

Lemma classification_of_run_witness :
  filter is_summary_count
    (fst (run (U:=latin1) (K:=sample_clock) (world_with sample_wordlist)
            default_arguments))
  = [Print (MsgTotal 3); Print (MsgAvailable 1); Print (MsgTaken 1)].
Proof.
  destruct (classification_of_run (U:=latin1) (K:=sample_clock)
              (world_with sample_wordlist) default_arguments sample_wordlist eq_refl eq_refl)
    as (_ & _ & Hcounts & _).
  - vm_compute. discriminate.
  - reflexivity.
  - exact Hcounts.
Defined.

Lemma summary_lists_available_witness :
  filter is_available_line
    (fst (run (U:=latin1) (K:=sample_clock) (world_with sample_wordlist)
            default_arguments))
  = [Print MsgAvailableHeader; Print (MsgAvailableItem (py "anothername"))].
Proof.
  apply (summary_lists_available (U:=latin1) (K:=sample_clock)
           (world_with sample_wordlist) default_arguments sample_wordlist eq_refl eq_refl).
  - vm_compute. discriminate.
  - reflexivity.
Defined.

Lemma failure_kind_is_invisible_witness :
  without_log (fst (run (U:=latin1) (K:=sample_clock) world_out_of_quota
                        default_arguments))
  = without_log (fst (run (U:=latin1) (K:=sample_clock) world_all_denied
                          default_arguments))
  /\ snd (run (U:=latin1) (K:=sample_clock) world_out_of_quota default_arguments)
     = snd (run (U:=latin1) (K:=sample_clock) world_all_denied default_arguments).
Proof.
  apply (failure_kind_is_invisible (U:=latin1) (K:=sample_clock)
           world_out_of_quota world_all_denied default_arguments).
  split; [reflexivity|]. split; intros; reflexivity.
Defined.

Lemma failing_backend_all_available_witness :
  filter is_summary_count
    (fst (run (U:=latin1) (K:=sample_clock) world_out_of_quota
            default_arguments))
  = [Print (MsgTotal 3); Print (MsgAvailable 2); Print (MsgTaken 0)].
Proof.
  destruct (failing_backend_all_available (U:=latin1) (K:=sample_clock)
              world_out_of_quota default_arguments sample_wordlist eq_refl eq_refl)
    as (_ & Hcounts & _).
  - vm_compute. discriminate.
  - reflexivity.
  - intros k name. discriminate.
  - exact Hcounts.
Defined.

Lemma delay_range_decides_status_witness :
  snd (run (U:=latin1) (K:=sample_clock) (world_with two_valid_names)
         too_long_delay) = 1%Z
  /\ List.length (lookups (fst (run (U:=latin1) (K:=sample_clock)
                                   (world_with two_valid_names)
                                   too_long_delay))) = 1%nat.
Proof.
  destruct (delay_range_decides_status (U:=latin1) (K:=sample_clock)
              (world_with two_valid_names) too_long_delay two_valid_names
              eq_refl eq_refl) as [_ H].
  - vm_compute. discriminate.
  - destruct H as (Hstatus & Hlookups & _).
    + vm_compute. intros H. apply H. reflexivity.
    + split; [exact Hstatus | exact Hlookups].
Defined.

Lemma lower_case_keeps_validity_witness :
  valid_name (U:=latin1) (lower (U:=latin1) (py "ANOTHERNAME")) = true.
Proof.
  destruct (lower_case_keeps_validity (U:=latin1) (py "ANOTHERNAME")) as (H & _).
  - repeat constructor.
  - rewrite H. reflexivity.
Defined.
